(** * Retrieval subsystem of supplychaingenai: chunker, extractor, local
      vector store and answer synthesis, embedded from
      [src/rag/document_processor.py], [src/rag/rag_handler.py] and
      [src/rag/query_engine.py]. *)

From Stdlib Require Import ZArith List String Ascii Bool Lia SpecFloat DecimalString.
From Stdlib Require Import Permutation Sorted.
Import ListNotations.

#[local] Open Scope string_scope.
#[local] Open Scope Z_scope.

(** ** Python sequence primitives

    Characters are modelled as [ascii]; a [str] is a [string], its length
    and indices are integers ([Z]) because the code computes negative
    cursors and hands them to slicing and [rfind]. *)

Module Py.

Definition len {A : Type} (l : list A) : Z := Z.of_nat (List.length l).

(** Index normalisation shared by [s[i:j]] and [s.rfind(c, i, j)]: a
    negative index counts from the end, then the index is clipped into
    [0 .. n]. *)
Definition adjust (n i : Z) : Z :=
  if i <? 0 then Z.max 0 (i + n) else Z.min i n.

(** [l[i:j]] *)
Definition slice {A : Type} (l : list A) (i j : Z) : list A :=
  let lo := adjust (len l) i in
  let hi := adjust (len l) j in
  firstn (Z.to_nat (hi - lo)) (skipn (Z.to_nat lo) l).

(** Left-to-right scan remembering the last index in [lo, hi) that holds
    [c]; [acc] is the answer so far. *)
Fixpoint rfind_scan (c : ascii) (l : list ascii) (i lo hi acc : Z) : Z :=
  match l with
  | [] => acc
  | x :: l' =>
      rfind_scan c l' (i + 1) lo hi
        (if (lo <=? i) && (i <? hi) && Ascii.eqb x c then i else acc)
  end.

(** [l.rfind(c, i, j)] for a one-character needle: the highest index in
    the normalised range holding [c], or [-1]. *)
Definition rfind (l : list ascii) (c : ascii) (i j : Z) : Z :=
  rfind_scan c l 0 (adjust (len l) i) (adjust (len l) j) (-1).

Definition str_len (s : string) : Z := len (list_ascii_of_string s).

Definition str_slice (s : string) (i j : Z) : string :=
  string_of_list_ascii (slice (list_ascii_of_string s) i j).

Definition str_rfind (s : string) (c : ascii) (i j : Z) : Z :=
  rfind (list_ascii_of_string s) c i j.

End Py.

(** ** DocumentProcessor ([src/rag/document_processor.py]) *)

Definition newline : ascii := "010"%char.
Definition space : ascii := " "%char.

(** The fields of [DocumentProcessor.__init__] that the chunker and the
    extractor read; the embedding model is an external collaborator. *)
Record DocumentProcessor := {
  supported_extensions : list string;
  max_text_chars : Z;
  max_chunks : Z
}.

Definition default_processor : DocumentProcessor :=
  {| supported_extensions := [".txt"; ".csv"; ".pdf"; ".docx"; ".xlsx"];
     max_text_chars := 1000000;
     max_chunks := 5000 |}.

(** Lines 119-131 of [chunk_text]: the right edge of the window that starts
    at [start]. *)
Definition window_end (text : string) (chunk_size start : Z) : Z :=
  let end_ := Z.min (start + chunk_size) (Py.str_len text) in
  if end_ <? Py.str_len text then
    let newline_pos := Py.str_rfind text newline start end_ in
    if newline_pos >? start then newline_pos + 1
    else
      let space_pos := Py.str_rfind text space start end_ in
      if space_pos >? start then space_pos + 1 else end_
  else end_.

(** [if overlap >= chunk_size: overlap = max(0, chunk_size // 2)] *)
Definition clamp_overlap (chunk_size overlap : Z) : Z :=
  if overlap >=? chunk_size then Z.max 0 (chunk_size / 2) else overlap.

(** The [while] loop of [chunk_text].  [fuel] bounds the number of
    iterations the model may run; [None] means the bound was reached with
    the loop condition still true. *)
Fixpoint chunk_loop (fuel : nat) (self : DocumentProcessor) (text : string)
    (chunk_size overlap start count : Z) (chunks : list string)
  : option (list string) :=
  if (start <? Py.str_len text) && (count <? max_chunks self) then
    match fuel with
    | O => None
    | S fuel' =>
        let end_ := window_end text chunk_size start in
        if end_ <=? start then Some chunks
        else
          chunk_loop fuel' self text chunk_size overlap
            (end_ - overlap) (count + 1)
            (chunks ++ [Py.str_slice text start end_])
    end
  else Some chunks.

Definition chunk_text_fuel (fuel : nat) (self : DocumentProcessor)
    (text : string) (chunk_size overlap : Z) : option (list string) :=
  if String.eqb text "" then Some []
  else chunk_loop fuel self text chunk_size (clamp_overlap chunk_size overlap)
         0 0 [].

(** The number of iterations never exceeds [max_chunks]
    (see [chunk_text_fuel_enough]), so this is the function itself. *)
Definition chunk_text (self : DocumentProcessor) (text : string)
    (chunk_size overlap : Z) : list string :=
  match chunk_text_fuel (Z.to_nat (max_chunks self)) self text chunk_size overlap with
  | Some chunks => chunks
  | None => []
  end.

(** The same loop, recording instead of each chunk the pair [(start, end)]
    it was cut at (the arguments of [text[start:end]]). *)
Fixpoint span_loop (fuel : nat) (self : DocumentProcessor) (text : string)
    (chunk_size overlap start count : Z) (spans : list (Z * Z))
  : option (list (Z * Z)) :=
  if (start <? Py.str_len text) && (count <? max_chunks self) then
    match fuel with
    | O => None
    | S fuel' =>
        let end_ := window_end text chunk_size start in
        if end_ <=? start then Some spans
        else
          span_loop fuel' self text chunk_size overlap
            (end_ - overlap) (count + 1) (spans ++ [(start, end_)])
    end
  else Some spans.

Definition chunk_spans (self : DocumentProcessor) (text : string)
    (chunk_size overlap : Z) : list (Z * Z) :=
  if String.eqb text "" then []
  else
    match span_loop (Z.to_nat (max_chunks self)) self text chunk_size
            (clamp_overlap chunk_size overlap) 0 0 [] with
    | Some spans => spans
    | None => []
    end.

(** Position [pos] of [text] lies inside the chunk cut as [text[s:e]]. *)
Definition span_covers (text : string) (span : Z * Z) (pos : Z) : Prop :=
  Py.adjust (Py.str_len text) (fst span) <= pos
  < Py.adjust (Py.str_len text) (snd span).

Definition with_max_chunks (n : Z) : DocumentProcessor :=
  {| supported_extensions := supported_extensions default_processor;
     max_text_chars := max_text_chars default_processor;
     max_chunks := n |}.

(** ** Exceptions

    A call either returns a value or raises; [bind] propagates a raised
    exception the way an uncaught Python exception unwinds. *)

Inductive exn :=
| KeyError (key : string)
| ValueError
| TypeError
| AttributeError
| OSError.

Inductive outcome (A : Type) :=
| Returns (a : A)
| Raises (e : exn).

Arguments Returns {A} a.
Arguments Raises {A} e.

Definition bind {A B : Type} (c : outcome A) (k : A -> outcome B) : outcome B :=
  match c with
  | Returns a => k a
  | Raises e => Raises e
  end.

Notation "x <- c ;; k" := (bind c (fun x => k))
  (at level 61, c at next level, right associativity).

(** A comprehension or [for] loop whose body may raise: elements are
    visited left to right and the first exception wins. *)
Fixpoint mapM {A B : Type} (f : A -> outcome B) (l : list A) : outcome (list B) :=
  match l with
  | [] => Returns []
  | a :: l' => b <- f a ;; bs <- mapM f l' ;; Returns (b :: bs)
  end.

Definition raises {A : Type} (c : outcome A) : Prop := exists e, c = Raises e.

(** ** Extraction *)

Definition lower_char (c : ascii) : ascii :=
  let n := nat_of_ascii c in
  if (Nat.leb 65 n && Nat.leb n 90)%bool then ascii_of_nat (n + 32) else c.

Fixpoint lower (s : string) : string :=
  match s with
  | EmptyString => EmptyString
  | String c s' => String (lower_char c) (lower s')
  end.

(** [os.path.splitext] (posixpath): the extension starts at the last dot
    of the last path component, unless that component has only leading
    dots before it. *)
Definition splitext (p : string) : string * string :=
  let n := Py.str_len p in
  let sepIndex := Py.str_rfind p "/"%char 0 n in
  let dotIndex := Py.str_rfind p "."%char 0 n in
  if (dotIndex >? sepIndex)
     && existsb (fun ch => negb (Ascii.eqb ch "."%char))
          (Py.slice (list_ascii_of_string p) (sepIndex + 1) dotIndex)
  then (Py.str_slice p 0 dotIndex, Py.str_slice p dotIndex n)
  else (p, "").

(** [os.path.basename] *)
Definition basename (p : string) : string :=
  Py.str_slice p (Py.str_rfind p "/"%char 0 (Py.str_len p) + 1) (Py.str_len p).

Definition is_supported_file (self : DocumentProcessor) (file_path : string) : bool :=
  existsb (String.eqb (lower (snd (splitext file_path)))) (supported_extensions self).

(** What the extractor sees of the outside world: opening and reading a
    text file ([open(...)] then [f.read()]), and loading a CSV and
    rendering its first 1000 rows ([pd.read_csv] then
    [df.head(1000).to_string()]).  Either may raise. *)
Record FileSystem := {
  read_text : string -> outcome string;
  read_csv_head : string -> outcome string
}.

Definition extract_text (self : DocumentProcessor) (fs : FileSystem)
    (file_path : string) : outcome string :=
  let ext := lower (snd (splitext file_path)) in
  if String.eqb ext ".txt" then
    match read_text fs file_path with
    | Returns text => Returns (Py.str_slice text 0 (max_text_chars self))
    | Raises _ => Returns ""
    end
  else if String.eqb ext ".csv" then
    match read_csv_head fs file_path with
    | Returns text => Returns (Py.str_slice text 0 (max_text_chars self))
    | Raises _ => Returns ""
    end
  else if String.eqb ext ".pdf" then
    Returns ("Mock PDF content from " ++ basename file_path)
  else if String.eqb ext ".docx" then
    Returns ("Mock DOCX content from " ++ basename file_path)
  else if String.eqb ext ".xlsx" then
    Returns ("Mock Excel content from " ++ basename file_path)
  else Returns "".

(** ** Values, dictionaries and vectors *)

(** binary64, as numpy's [float64] *)
Definition float := spec_float.
Definition fadd : float -> float -> float := SFadd 53 1024.
Definition fmul : float -> float -> float := SFmul 53 1024.
Definition fdiv : float -> float -> float := SFdiv 53 1024.
Definition fsqrt : float -> float := SFsqrt 53 1024.
Definition fzero : float := S754_zero false.
Definition fone : float := S754_finite false 4503599627370496 (-52).

Definition is_nan (x : float) : bool :=
  match x with S754_nan => true | _ => false end.

Definition is_zero (x : float) : bool :=
  match x with S754_zero _ => true | _ => false end.

(** Metadata mappings are keyed by strings; their values are modelled as
    strings (the reserved [text] key and [file_name] hold strings, and no
    modelled code inspects any other value). *)
Definition metadata_t := list (string * string).

Inductive value :=
| VStr (s : string)
| VInt (n : Z)
| VFloat (x : float)
| VMeta (m : metadata_t).

(** A [dict] with string keys, in insertion order. *)
Definition pydict := list (string * value).

Section Dict.
Context {V : Type}.

Fixpoint dict_get (k : string) (d : list (string * V)) : option V :=
  match d with
  | [] => None
  | (k', v) :: d' => if String.eqb k k' then Some v else dict_get k d'
  end.

Definition dict_in (k : string) (d : list (string * V)) : bool :=
  match dict_get k d with Some _ => true | None => false end.

(** [d[k] = v]: overwrite in place, or append a new key. *)
Fixpoint dict_set (k : string) (v : V) (d : list (string * V)) : list (string * V) :=
  match d with
  | [] => [(k, v)]
  | (k', v') :: d' =>
      if String.eqb k k' then (k, v) :: d' else (k', v') :: dict_set k v d'
  end.

(** [d.update(other)] *)
Definition dict_update (d other : list (string * V)) : list (string * V) :=
  fold_left (fun acc kv => dict_set (fst kv) (snd kv) acc) other d.
End Dict.

(** [d[k]] on a value dictionary *)
Definition getitem (d : pydict) (k : string) : outcome value :=
  match dict_get k d with
  | Some v => Returns v
  | None => Raises (KeyError k)
  end.

(** [str.join] accepts only strings. *)
Definition as_str (v : value) : outcome string :=
  match v with
  | VStr s => Returns s
  | _ => Raises TypeError
  end.

Definition newline2 : string := String newline (String newline "").

Fixpoint join (sep : string) (l : list string) : string :=
  match l with
  | [] => ""
  | [s] => s
  | s :: l' => s ++ sep ++ join sep l'
  end.

(** [sub in s] *)
Definition contains (sub s : string) : bool :=
  match String.index 0 sub s with Some _ => true | None => false end.

Definition show_Z (n : Z) : string := NilZero.string_of_int (Z.to_int n).

(** [enumerate] *)
Fixpoint enumerate_from {A : Type} (i : Z) (l : list A) : list (Z * A) :=
  match l with
  | [] => []
  | a :: l' => (i, a) :: enumerate_from (i + 1) l'
  end.

Definition enumerate {A : Type} (l : list A) : list (Z * A) := enumerate_from 0 l.

(** ** External collaborators

    The sentence-embedding model and the remote similarity-search service
    are outside the repository; the code only calls them. *)

Record Match := {
  match_id : string;
  match_score : float;
  match_metadata : metadata_t
}.

Class Backend := {
  (** [self.model.encode(text).tolist()] *)
  encode : string -> list float;
  (** [self.model.encode(chunks, batch_size=32).tolist()] *)
  encode_batch : list string -> outcome (list (list float));
  (** the remote index handle and the two calls made on it *)
  Index : Type;
  index_upsert : Index -> string -> list float -> metadata_t -> Index;
  index_query : Index -> list float -> Z -> outcome (list Match)
}.

(** The document processor's own model, called on one chunk in the
    fallback of [embed_chunks]: [self.model.encode(chunk).tolist()].  The
    call sits outside any [try], so what it raises reaches the caller. *)
Class ChunkEncoder := {
  encode_chunk : string -> outcome (list float)
}.

Section Ingestion.
Context `{Backend} `{ChunkEncoder}.

Definition embed_chunks (chunks : list string) : outcome (list (list float)) :=
  match chunks with
  | [] => Returns []
  | _ =>
      match encode_batch chunks with
      | Returns embeddings => Returns embeddings
      | Raises _ => mapM encode_chunk chunks
      end
  end.

(** One element of the list [process_document] returns. *)
Record DocumentChunk := {
  dc_id : string;
  dc_text : string;
  dc_embedding : list float;
  dc_metadata : metadata_t
}.

(** [uuid4 i] is the identifier drawn for the [i]-th chunk. *)
Definition process_document (self : DocumentProcessor) (fs : FileSystem)
    (uuid4 : Z -> string) (file_path : string) (metadata : option metadata_t)
  : outcome (list DocumentChunk) :=
  if negb (is_supported_file self file_path) then Returns []
  else
    text <- extract_text self fs file_path ;;
    if String.eqb text "" then Returns []
    else
      let chunks := chunk_text self text 1000 200 in
      embeddings <- embed_chunks chunks ;;
      let metadata :=
        dict_update (match metadata with Some m => m | None => [] end)
          [("file_name", basename file_path);
           ("file_path", file_path);
           ("file_type", lower (snd (splitext file_path)))] in
      Returns
        (map (fun ice =>
                {| dc_id := uuid4 (fst ice);
                   dc_text := fst (snd ice);
                   dc_embedding := snd (snd ice);
                   dc_metadata :=
                     dict_set "chunk_index" (show_Z (fst ice)) metadata |})
             (enumerate (combine chunks embeddings))).
End Ingestion.

(** ** RAGHandler ([src/rag/rag_handler.py]) *)

(** An element of [mock_vectors]: a dictionary built with exactly the keys
    [id], [vector] and [metadata]. *)
Record StoredDoc := {
  doc_id : string;
  doc_vector : list float;
  doc_metadata : metadata_t
}.

(** [np.dot] on two one-dimensional arrays: shapes must agree; the sum is
    accumulated from [0.0] in index order. *)
Definition dot_sum (v1 v2 : list float) : float :=
  fold_left (fun acc ab => fadd acc (fmul (fst ab) (snd ab))) (combine v1 v2) fzero.

Definition np_dot (v1 v2 : list float) : outcome float :=
  if Nat.eqb (List.length v1) (List.length v2) then Returns (dot_sum v1 v2)
  else Raises ValueError.

(** [np.linalg.norm] of a one-dimensional array: [sqrt(dot(x, x))]. *)
Definition np_linalg_norm (v : list float) : float := fsqrt (dot_sum v v).

Definition _cosine_similarity (vec1 vec2 : list float) : outcome float :=
  dot_product <- np_dot vec1 vec2 ;;
  let norm_vec1 := np_linalg_norm vec1 in
  let norm_vec2 := np_linalg_norm vec2 in
  Returns (fdiv dot_product (fmul norm_vec1 norm_vec2)).

(** [list.sort(key=lambda x: x[1], reverse=True)]: a stable sort into
    descending key order, comparing keys with [<] only.  Elements whose
    keys are not ordered against each other (NaN) are left where the
    insertion finds them; Python fixes no order for such keys. *)
Fixpoint insert_desc {A : Type} (x : A * float) (l : list (A * float)) : list (A * float) :=
  match l with
  | [] => [x]
  | y :: l' =>
      if SFltb (snd x) (snd y) then y :: insert_desc x l' else x :: y :: l'
  end.

Definition sort_desc {A : Type} (l : list (A * float)) : list (A * float) :=
  fold_right insert_desc [] l.

(** The dictionary built for each hit, by [_mock_search] and by [search]. *)
Definition result_dict (id : string) (score : float) (metadata : metadata_t) : pydict :=
  [("id", VStr id); ("score", VFloat score); ("metadata", VMeta metadata)].

Definition _mock_search (mock_vectors : list StoredDoc) (query_vector : list float)
    (top_k : Z) : outcome (list pydict) :=
  similarities <-
    mapM (fun doc =>
            similarity <- _cosine_similarity query_vector (doc_vector doc) ;;
            Returns (doc, similarity))
         mock_vectors ;;
  Returns
    (map (fun ds => result_dict (doc_id (fst ds)) (snd ds) (doc_metadata (fst ds)))
         (Py.slice (sort_desc similarities) 0 top_k)).

Record Answer := {
  answer : string;
  sources : list pydict
}.

Definition insufficient_information : string :=
  "I don't have enough information to answer that question.".

(** [results] enter [_generate_mock_answer] only through
    [result["text"]]; [texts] are those values, already read in
    [get_answer]. *)
Definition _generate_mock_answer (query context : string) (texts : list string) : string :=
  let query_lower := lower query in
  let first := hd insufficient_information texts in
  let any_text (p : string -> bool) := existsb (fun t => p (lower t)) texts in
  if contains "abc analysis" query_lower then
    if any_text (contains "abc analysis") then first
    else "ABC Analysis is an inventory categorization method which consists of dividing items into three categories: A, B, and C based on their value and sales frequency."
  else if contains "jit" query_lower || contains "just in time" query_lower then
    if any_text (fun t => contains "jit" t || contains "just-in-time" t) then first
    else "Just-in-Time (JIT) inventory management is a strategy that aligns raw-material orders from suppliers directly with production schedules to reduce waste and inventory costs."
  else if contains "eoq" query_lower || contains "economic order quantity" query_lower then
    if any_text (fun t => contains "eoq" t || contains "economic order quantity" t) then first
    else "Economic Order Quantity (EOQ) is the order quantity that minimizes the total holding costs and ordering costs."
  else if contains "fifo" query_lower || contains "first in first out" query_lower then
    if any_text (fun t => contains "fifo" t || contains "first-in, first-out" t) then first
    else "First-In, First-Out (FIFO) is an asset-management method in which assets produced or acquired first are sold, used, or disposed of first."
  else if contains "safety stock" query_lower then
    if any_text (contains "safety stock") then first
    else "Safety stock is a level of extra stock that is maintained to mitigate risk of stockouts caused by uncertainties in supply and demand."
  else first.

Section Handler.
Context `{Backend}.

(** [__init__] leaves the handler in one of two shapes: mock mode owns
    the list [mock_vectors] and no index; otherwise it owns the remote
    index and has no [mock_vectors] attribute. *)
Inductive RAGHandler :=
| MockHandler (mock_vectors : list StoredDoc)
| RemoteHandler (index : Index).

Definition mock (self : RAGHandler) : bool :=
  match self with
  | MockHandler _ => true
  | RemoteHandler _ => false
  end.

Definition embed_text (text : string) : list float := encode text.

(** [doc_id] is the value [str(uuid.uuid4())] takes in this call. *)
Definition add_document (self : RAGHandler) (doc_id : string) (text : string)
    (metadata : option metadata_t) : string * RAGHandler :=
  let vector := embed_text text in
  let metadata := match metadata with Some m => m | None => [] end in
  let metadata := dict_set "text" text metadata in
  match self with
  | RemoteHandler index =>
      (doc_id, RemoteHandler (index_upsert index doc_id vector metadata))
  | MockHandler mock_vectors =>
      (doc_id,
       MockHandler
         (mock_vectors ++
          [{| doc_id := doc_id; doc_vector := vector; doc_metadata := metadata |}]))
  end.

Definition search (self : RAGHandler) (query : string) (top_k : Z)
  : outcome (list pydict) :=
  let query_vector := embed_text query in
  match self with
  | RemoteHandler index =>
      match index_query index query_vector top_k with
      | Returns matches =>
          Returns
            (map (fun m => result_dict (match_id m) (match_score m) (match_metadata m))
                 matches)
      | Raises _ =>
          (* the fallback reads [self.mock_vectors], which this shape lacks *)
          Raises AttributeError
      end
  | MockHandler mock_vectors => _mock_search mock_vectors query_vector top_k
  end.

Definition get_answer (self : RAGHandler) (query : string) : outcome Answer :=
  results <- search self query 3 ;;
  match results with
  | [] => Returns {| answer := insufficient_information; sources := [] |}
  | _ =>
      values <- mapM (fun result => getitem result "text") results ;;
      texts <- mapM as_str values ;;
      let context := join newline2 texts in
      Returns {| answer := _generate_mock_answer query context texts;
                 sources := results |}
  end.
End Handler.

(** ** QueryEngine ([src/rag/query_engine.py]) *)

(** [list(set(context))]: the distinct strings of [context], in the
    iteration order of the set, which the language leaves unspecified. *)
Class SetOrder := {
  set_list : list string -> list string;
  set_list_NoDup : forall l, NoDup (set_list l);
  set_list_In : forall l x, In x (set_list l) <-> In x l
}.

Definition no_relevant_information : string :=
  "I couldn't find any relevant information in the uploaded documents.".

Definition response_header (query : string) : string :=
  "Based on the uploaded documents, here's information about '" ++ query ++ "':"
  ++ newline2.

(** [ctx[:300] + "..." if len(ctx) > 300 else ctx] *)
Definition ctx_preview (ctx : string) : string :=
  if Py.str_len ctx >? 300 then Py.str_slice ctx 0 300 ++ "..." else ctx.

(** [f"Document {i+1}: {ctx_preview}\n\n"] *)
Definition document_line (i : Z) (ctx : string) : string :=
  "Document " ++ show_Z (i + 1) ++ ": " ++ ctx_preview ctx ++ newline2.

Section Engine.
Context `{Backend} `{SetOrder}.

Definition generate_response (query : string) (context : list string) : string :=
  match context with
  | [] => no_relevant_information
  | _ =>
      let unique_contexts := set_list context in
      fold_left
        (fun response ic => response ++ document_line (fst ic) (snd ic))
        (enumerate (Py.slice unique_contexts 0 3))
        (response_header query)
  end.

(** The first loop of [_generate_response_from_docs]. *)
Definition doc_contexts (docs : list pydict) : list string :=
  flat_map
    (fun doc =>
       match dict_get "metadata" doc with
       | Some (VMeta metadata) =>
           match dict_get "text" metadata with
           | Some text => [text]
           | None => []
           end
       | _ => []
       end)
    docs.

(** The second loop of [_generate_response_from_docs]. *)
Definition doc_sources (docs : list pydict) : list pydict :=
  flat_map
    (fun doc =>
       match dict_get "metadata" doc with
       | Some (VMeta metadata) =>
           match dict_get "file_name" metadata with
           | Some file_name =>
               [[("file_name", VStr file_name);
                 ("relevance",
                  match dict_get "score" doc with
                  | Some score => score
                  | None => VInt 0
                  end)]]
           | None => []
           end
       | _ => []
       end)
    docs.

Definition _generate_response_from_docs (query : string) (docs : list pydict) : Answer :=
  let contexts := doc_contexts docs in
  let sources := doc_sources docs in
  {| answer := generate_response query contexts; sources := sources |}.

Definition search_documents (rag_handler : RAGHandler) (query : string) (top_k : Z)
  : outcome (list pydict) :=
  search rag_handler query top_k.

Definition process_query (rag_handler : RAGHandler) (query : string) (top_k : Z)
  : outcome Answer :=
  relevant_docs <- search_documents rag_handler query top_k ;;
  match relevant_docs with
  | _ :: _ =>
      if negb (mock rag_handler)
      then Returns (_generate_response_from_docs query relevant_docs)
      else get_answer rag_handler query
  | [] => get_answer rag_handler query
  end.
End Engine.

(** ** RAGHandler: deletion and the document library *)

(** The two further calls the handler makes on the remote index:
    [self.index.delete(ids=[doc_id])] and
    [self.index.describe_index_stats().get('total_vector_count', 0)]. *)
Class IndexAdmin `{Backend} := {
  index_delete : Index -> string -> Index;
  describe_index_stats : Index -> outcome Z
}.

(** One entry of the list [get_all_documents] returns. *)
Record DocInfo := {
  info_id : string;
  info_name : string;
  info_type : string;
  info_uploaded : string;
  info_size : string;
  info_text_preview : string
}.

(** [d.get(k, default)] *)
Definition dict_get_default {V : Type} (k : string) (default : V)
    (d : list (string * V)) : V :=
  match dict_get k d with
  | Some v => v
  | None => default
  end.

(** [metadata.get('text', '')[:100] + "..." if metadata.get('text', '') else ""] *)
Definition text_preview (metadata : metadata_t) : string :=
  if String.eqb (dict_get_default "text" "" metadata) "" then ""
  else Py.str_slice (dict_get_default "text" "" metadata) 0 100 ++ "...".

Definition doc_info (m : Match) : DocInfo :=
  {| info_id := match_id m;
     info_name := dict_get_default "file_name" "Unknown Document" (match_metadata m);
     info_type := dict_get_default "file_type" "Unknown" (match_metadata m);
     info_uploaded := dict_get_default "upload_date" "Unknown" (match_metadata m);
     info_size := dict_get_default "file_size" "Unknown" (match_metadata m);
     info_text_preview := text_preview (match_metadata m) |}.

(** The loop that removes duplicates by file name; [seen_names] is the
    set of names already kept. *)
Fixpoint unique_by_name (seen_names : list string) (documents : list DocInfo)
  : list DocInfo :=
  match documents with
  | [] => []
  | doc :: rest =>
      if existsb (String.eqb (info_name doc)) seen_names
      then unique_by_name seen_names rest
      else doc :: unique_by_name (info_name doc :: seen_names) rest
  end.

Definition sample_documents : list DocInfo :=
  [{| info_id := "mock_1";
      info_name := "Sample Document.pdf";
      info_type := "PDF";
      info_uploaded := "2023-07-10";
      info_size := "1.2 MB";
      info_text_preview := "This is a sample document for testing purposes..." |}].

Section Library.
Context `{IndexAdmin}.

Definition delete_document (self : RAGHandler) (doc_id' : string) : bool * RAGHandler :=
  match self with
  | RemoteHandler index => (true, RemoteHandler (index_delete index doc_id'))
  | MockHandler mock_vectors =>
      (true,
       MockHandler
         (filter (fun doc => negb (String.eqb (doc_id doc) doc_id')) mock_vectors))
  end.

Definition get_all_documents (self : RAGHandler) : list DocInfo :=
  match self with
  | RemoteHandler index =>
      match describe_index_stats index with
      | Raises _ => []
      | Returns total_vectors =>
          if total_vectors =? 0 then []
          else
            match index_query index (repeat fzero 384)
                    (Z.min total_vectors 10000) with
            | Raises _ => []
            | Returns matches => unique_by_name [] (map doc_info matches)
            end
      end
  | MockHandler _ => sample_documents
  end.
End Library.

(** ** The upload loop of [src/app.py]

    [for chunk in document_chunks: rag_handler.add_document(text=chunk["text"],
    metadata=chunk["metadata"])]; [uuid4 i] is the identifier drawn by the
    [i]-th call. *)
Fixpoint index_chunks `{Backend} (uuid4 : Z -> string) (i : Z)
    (rag_handler : RAGHandler) (document_chunks : list DocumentChunk) : RAGHandler :=
  match document_chunks with
  | [] => rag_handler
  | chunk :: rest =>
      index_chunks uuid4 (i + 1)
        (snd (add_document rag_handler (uuid4 i) (dc_text chunk)
                (Some (dc_metadata chunk))))
        rest
  end.

(** * Vocabulary of the statements *)

(** Iterations left before [count] reaches the cap. *)
Definition budget (self : DocumentProcessor) (count : Z) : nat :=
  Z.to_nat (max_chunks self - count).

(** The shape of a run of the loop from cursor [start]: each span starts
    at the cursor, ends at the window's right edge, which lies beyond
    the cursor, and the next cursor is that edge minus the overlap. *)
Inductive run (text : string) (chunk_size overlap : Z) : Z -> list (Z * Z) -> Prop :=
| run_stop (start : Z) : run text chunk_size overlap start []
| run_cut (start : Z) (rest : list (Z * Z)) :
    start < Py.str_len text ->
    start < window_end text chunk_size start ->
    run text chunk_size overlap (window_end text chunk_size start - overlap) rest ->
    run text chunk_size overlap start
      ((start, window_end text chunk_size start) :: rest).

(** The records a handler holds locally. *)
Definition stored_vectors `{Backend} (self : RAGHandler) : list StoredDoc :=
  match self with
  | MockHandler mock_vectors => mock_vectors
  | RemoteHandler _ => []
  end.

(** [a] may stand before [b] in a list sorted by descending score. *)
Definition score_ge {A : Type} (a b : A * float) : Prop :=
  SFleb (snd b) (snd a) = true.

(** [h] has a score equal to [s]. *)
Definition score_is {A : Type} (s : float) (h : A * float) : bool :=
  SFeqb (snd h) s.

Definition numeric {A : Type} (h : A * float) : Prop := is_nan (snd h) = false.

Definition span_slice (text : string) (sp : Z * Z) : string :=
  Py.str_slice text (fst sp) (snd sp).

(** ** Concrete inputs *)

(** An embedder that maps every text to the unit vector [[1.0]] and a
    remote index that holds nothing. *)
#[local] Instance unit_backend : Backend := {|
  encode := fun _ => [fone];
  encode_batch := fun chunks => Returns (map (fun _ => [fone]) chunks);
  Index := unit;
  index_upsert := fun index _ _ _ => index;
  index_query := fun _ _ _ => Returns []
|}.

(** A chunk encoder that maps every chunk to [[1.0]]. *)
#[local] Instance unit_encoder : ChunkEncoder := {|
  encode_chunk := fun _ => Returns [fone]
|}.

(** An embedder whose batch call fails, and a chunk encoder that fails
    too. *)
Definition failing_batch : Backend := {|
  encode := fun _ => [fone];
  encode_batch := fun _ => Raises ValueError;
  Index := unit;
  index_upsert := fun index _ _ _ => index;
  index_query := fun _ _ _ => Returns []
|}.

Definition failing_encoder : ChunkEncoder := {|
  encode_chunk := fun _ => Raises TypeError
|}.

(** A file system on which every read fails. *)
Definition unreadable : FileSystem :=
  {| read_text := fun _ => Raises OSError;
     read_csv_head := fun _ => Raises OSError |}.

Definition count_id (id : string) (mock_vectors : list StoredDoc) : nat :=
  List.length (filter (fun doc => String.eqb (doc_id doc) id) mock_vectors).

(** [rank] maps every float that is not NaN to a triple of integers
    ordered lexicographically the way [<] orders the floats. *)
Definition rank (x : float) : Z * Z * Z :=
  match x with
  | S754_infinity true => (-2, 0, 0)
  | S754_finite true m e => (-1, - e, - Zpos m)
  | S754_zero _ => (0, 0, 0)
  | S754_nan => (0, 0, 0)
  | S754_finite false m e => (1, e, Zpos m)
  | S754_infinity false => (2, 0, 0)
  end.

Definition rank_lt (a b : Z * Z * Z) : Prop :=
  fst (fst a) < fst (fst b)
  \/ fst (fst a) = fst (fst b)
     /\ (snd (fst a) < snd (fst b)
         \/ snd (fst a) = snd (fst b) /\ snd a < snd b).

Definition rank_eq (a b : Z * Z * Z) : Prop :=
  fst (fst a) = fst (fst b) /\ snd (fst a) = snd (fst b) /\ snd a = snd b.

Ltac float_cases :=
  repeat match goal with
         | x : float |- _ => destruct x as [[|]|[|]| |[|] ? ?]
         | x : spec_float |- _ => destruct x as [[|]|[|]| |[|] ? ?]
         end;
  try discriminate.

Ltac compare_cases :=
  unfold rank_lt, rank_eq, SFltb, SFleb, SFeqb, SFcompare, rank; simpl;
  repeat match goal with
         | |- context [Z.compare ?a ?b] => destruct (Z.compare_spec a b)
         | |- context [Pos.compare_cont Eq ?a ?b] =>
             change (Pos.compare_cont Eq a b) with (Pos.compare a b);
             destruct (Pos.compare_spec a b)
         end;
  simpl; split; intros; try discriminate; try reflexivity; try lia.

(** The score [_cosine_similarity] returns when the shapes agree. *)
Definition cosine_value (vec1 vec2 : list float) : float :=
  fdiv (dot_sum vec1 vec2) (fmul (np_linalg_norm vec1) (np_linalg_norm vec2)).

Definition scored (query_vector : list float) (doc : StoredDoc) : StoredDoc * float :=
  (doc, cosine_value query_vector (doc_vector doc)).

Definition hit_dict (h : StoredDoc * float) : pydict :=
  result_dict (doc_id (fst h)) (snd h) (doc_metadata (fst h)).

Definition same_shape (query_vector : list float) (doc : StoredDoc) : Prop :=
  List.length (doc_vector doc) = List.length query_vector.

Definition fminus_one : float := S754_finite true 4503599627370496 (-52).

Definition bare_doc (id : string) (vector : list float) : StoredDoc :=
  {| doc_id := id; doc_vector := vector; doc_metadata := [] |}.

Definition three_docs : list StoredDoc :=
  [bare_doc "a" [fone]; bare_doc "b" [fminus_one]; bare_doc "c" [fone]].

(** 0.7071067811865475, the cosine of [[1, 0]] and [[1, 1]] *)
Definition half_sqrt2 : float := S754_finite false 6369051672525772 (-53).

Definition zero_or_nan (x : float) : bool := is_zero x || is_nan x.

(** [-1 <= s <= 1] *)
Definition in_cosine_range (s : float) : bool :=
  SFleb fminus_one s && SFleb s fone.

Definition render_line (ic : Z * string) : string :=
  document_line (fst ic) (snd ic).

(** [doc] carries a dictionary under [metadata] with a [file_name]. *)
Definition file_name_of (doc : pydict) : option string :=
  match dict_get "metadata" doc with
  | Some (VMeta metadata) => dict_get "file_name" metadata
  | _ => None
  end.

Definition text_of (doc : pydict) : option string :=
  match dict_get "metadata" doc with
  | Some (VMeta metadata) => dict_get "text" metadata
  | _ => None
  end.

Definition relevance_of (doc : pydict) : value :=
  match dict_get "score" doc with
  | Some score => score
  | None => VInt 0
  end.

Fixpoint keep_some {X : Type} (l : list (option X)) : list X :=
  match l with
  | [] => []
  | Some x :: l' => x :: keep_some l'
  | None :: l' => keep_some l'
  end.

Definition source_entry (doc : pydict) : option pydict :=
  match file_name_of doc with
  | Some file_name =>
      Some [("file_name", VStr file_name); ("relevance", relevance_of doc)]
  | None => None
  end.

(** Two iteration orders a set of strings may have: the order [nodup]
    leaves, and its reverse. *)
#[local] Instance nodup_order : SetOrder := {|
  set_list := nodup string_dec;
  set_list_NoDup := NoDup_nodup string_dec;
  set_list_In := nodup_In string_dec
|}.

Definition reversed_order : SetOrder := {|
  set_list := fun l => rev (nodup string_dec l);
  set_list_NoDup := fun l => NoDup_rev (NoDup_nodup string_dec l);
  set_list_In := fun l x =>
    iff_trans (iff_sym (in_rev (nodup string_dec l) x)) (nodup_In string_dec l x)
|}.

Definition text_only_hit : pydict :=
  result_dict "chunk-1" fone [("text", "safety stock covers demand spikes")].

(** ** Further vocabulary and inputs *)

Definition notes_file : FileSystem :=
  {| read_text := fun _ => Returns "lead time is ten days";
     read_csv_head := fun _ => Raises OSError |}.

Definition short_cap : DocumentProcessor :=
  {| supported_extensions := supported_extensions default_processor;
     max_text_chars := 9;
     max_chunks := 2 |}.

Definition reserved_keys : list string :=
  ["chunk_index"; "file_name"; "file_path"; "file_type"].

Definition has_text (doc : StoredDoc) : bool := dict_in "text" (doc_metadata doc).

Definition shape_ok (query_vector : list float) (doc : StoredDoc) : bool :=
  Nat.eqb (List.length query_vector) (List.length (doc_vector doc)).

Definition has_id (id : string) (doc : StoredDoc) : bool := String.eqb (doc_id doc) id.

(** An index administration interface over [unit_backend]. *)
#[local] Instance unit_admin : @IndexAdmin unit_backend := {|
  index_delete := fun index _ => index;
  describe_index_stats := fun _ => Returns 0
|}.

(** A remote index holding three chunks, two of them of the same file. *)
Definition listing_matches : list Match :=
  [{| match_id := "m1"; match_score := fone;
      match_metadata := [("file_name", "plan.txt"); ("text", "first part")] |};
   {| match_id := "m2"; match_score := fone;
      match_metadata := [("file_name", "plan.txt"); ("text", "second part")] |};
   {| match_id := "m3"; match_score := fone;
      match_metadata := [("file_name", "stock.csv")] |}].

Definition listing_backend : Backend := {|
  encode := fun _ => [fone];
  encode_batch := fun chunks => Returns (map (fun _ => [fone]) chunks);
  Index := unit;
  index_upsert := fun index _ _ _ => index;
  index_query := fun _ _ _ => Returns listing_matches
|}.

Definition listing_admin : @IndexAdmin listing_backend := {|
  index_delete := fun index _ => index;
  describe_index_stats := fun _ => Returns 3
|}.

(** The source entry [process_query] builds for a match of the remote
    index that has a [file_name]. *)
Definition match_source (m : Match) : option pydict :=
  match dict_get "file_name" (match_metadata m) with
  | Some file_name =>
      Some [("file_name", VStr file_name); ("relevance", VFloat (match_score m))]
  | None => None
  end.

(** The last character of [text[:e]], as a string. *)
Definition char_before (text : string) (e : Z) : string := Py.str_slice text (e - 1) e.

(** * Properties *)

(** ** Slicing and searching *)

Lemma str_len_nonneg (s : string) : 0 <= Py.str_len s.
Proof. unfold Py.str_len, Py.len. lia. Qed.

Lemma adjust_id (n i : Z) : 0 <= i <= n -> Py.adjust n i = i.
Proof.
  intros Hi. unfold Py.adjust.
  destruct (i <? 0) eqn:E; [apply Z.ltb_lt in E; lia | lia].
Qed.

Lemma adjust_range (n i : Z) : 0 <= n -> 0 <= Py.adjust n i <= n.
Proof.
  intros Hn. unfold Py.adjust. destruct (i <? 0) eqn:E.
  - apply Z.ltb_lt in E. lia.
  - apply Z.ltb_ge in E. lia.
Qed.

Lemma rfind_scan_range (c : ascii) (l : list ascii) :
  forall i lo hi acc,
    acc = -1 \/ lo <= acc < hi ->
    Py.rfind_scan c l i lo hi acc = -1
    \/ lo <= Py.rfind_scan c l i lo hi acc < hi.
Proof.
  induction l as [|x l IH]; intros i lo hi acc Hacc; simpl.
  - exact Hacc.
  - apply IH.
    destruct ((lo <=? i) && (i <? hi) && Ascii.eqb x c)%bool eqn:E.
    + apply andb_prop in E as [E _]. apply andb_prop in E as [E1 E2].
      apply Z.leb_le in E1. apply Z.ltb_lt in E2. right. lia.
    + exact Hacc.
Qed.

(** [rfind] answers [-1] or an index of the normalised range. *)
Lemma rfind_range (s : string) (c : ascii) (i j : Z) :
  Py.str_rfind s c i j = -1
  \/ Py.adjust (Py.str_len s) i <= Py.str_rfind s c i j
     < Py.adjust (Py.str_len s) j.
Proof.
  unfold Py.str_rfind, Py.rfind, Py.str_len.
  apply rfind_scan_range. now left.
Qed.

(** From a cursor inside the text, the window ends strictly to the right
    of the cursor and inside the text. *)
Lemma window_end_bounds (text : string) (chunk_size start : Z) :
  0 <= start < Py.str_len text -> 0 < chunk_size ->
  start < window_end text chunk_size start <= Py.str_len text.
Proof.
  intros Hs Hc. unfold window_end.
  set (n := Py.str_len text) in *.
  set (e0 := Z.min (start + chunk_size) n).
  assert (He0 : start < e0 <= n) by (unfold e0; lia).
  destruct (e0 <? n) eqn:E; [|lia].
  apply Z.ltb_lt in E.
  assert (Hadj : forall c, Py.str_rfind text c start e0 = -1
                           \/ start <= Py.str_rfind text c start e0 < e0).
  { intros c. pose proof (rfind_range text c start e0) as Hr.
    fold n in Hr. rewrite !adjust_id in Hr by lia. exact Hr. }
  destruct (Py.str_rfind text newline start e0 >? start) eqn:En.
  - apply Z.gtb_lt in En. destruct (Hadj newline); lia.
  - destruct (Py.str_rfind text space start e0 >? start) eqn:Esp; [|lia].
    apply Z.gtb_lt in Esp. destruct (Hadj space); lia.
Qed.

(** ** The chunking loop *)

Section ChunkLoop.
Variable self : DocumentProcessor.
Variable text : string.
Variables chunk_size overlap : Z.

Lemma chunk_loop_enough :
  forall fuel start count chunks,
    (budget self count <= fuel)%nat ->
    exists out,
      chunk_loop fuel self text chunk_size overlap start count chunks = Some out
      /\ (List.length out <= List.length chunks + budget self count)%nat.
Proof.
  unfold budget.
  induction fuel as [|fuel IH]; intros start count chunks Hf; simpl.
  - destruct (start <? Py.str_len text); simpl.
    + destruct (count <? max_chunks self) eqn:E.
      * apply Z.ltb_lt in E. lia.
      * eexists; split; [reflexivity | lia].
    + eexists; split; [reflexivity | lia].
  - destruct ((start <? Py.str_len text) && (count <? max_chunks self))%bool eqn:E.
    + apply andb_prop in E as [_ E]. apply Z.ltb_lt in E.
      destruct (window_end text chunk_size start <=? start).
      * eexists; split; [reflexivity | lia].
      * destruct (IH (window_end text chunk_size start - overlap) (count + 1)
                    (chunks ++ [Py.str_slice text start
                                  (window_end text chunk_size start)])%list)
          as [out [Ho Hl]]; [lia|].
        exists out. split; [exact Ho|].
        rewrite length_app in Hl. simpl in Hl. lia.
    + eexists; split; [reflexivity | lia].
Qed.

Lemma chunk_loop_more_fuel :
  forall fuel start count chunks out,
    chunk_loop fuel self text chunk_size overlap start count chunks = Some out ->
    forall extra,
      chunk_loop (fuel + extra) self text chunk_size overlap start count chunks
      = Some out.
Proof.
  induction fuel as [|fuel IH]; intros start count chunks out Ho extra.
  - simpl in Ho.
    destruct ((start <? Py.str_len text) && (count <? max_chunks self))%bool eqn:E;
      [discriminate|].
    destruct extra; simpl; rewrite E; exact Ho.
  - simpl in *.
    destruct ((start <? Py.str_len text) && (count <? max_chunks self))%bool;
      [|exact Ho].
    destruct (window_end text chunk_size start <=? start); [exact Ho|].
    now apply IH.
Qed.

(** The recorded spans are the slices the loop appended. *)
Lemma chunk_loop_spans :
  forall fuel start count spans,
    chunk_loop fuel self text chunk_size overlap start count
      (map (fun sp => Py.str_slice text (fst sp) (snd sp)) spans)
    = option_map (map (fun sp => Py.str_slice text (fst sp) (snd sp)))
        (span_loop fuel self text chunk_size overlap start count spans).
Proof.
  induction fuel as [|fuel IH]; intros start count spans; simpl.
  - destruct ((start <? Py.str_len text) && (count <? max_chunks self))%bool;
      reflexivity.
  - destruct ((start <? Py.str_len text) && (count <? max_chunks self))%bool;
      [|reflexivity].
    destruct (window_end text chunk_size start <=? start); [reflexivity|].
    rewrite <- IH, map_app. reflexivity.
Qed.

Lemma span_loop_run :
  forall fuel start count spans out,
    span_loop fuel self text chunk_size overlap start count spans = Some out ->
    exists tail, out = (spans ++ tail)%list /\ run text chunk_size overlap start tail.
Proof.
  induction fuel as [|fuel IH]; intros start count spans out Ho; simpl in Ho.
  - destruct ((start <? Py.str_len text) && (count <? max_chunks self))%bool;
      [discriminate|].
    injection Ho as <-. exists []. rewrite app_nil_r. split; [reflexivity|constructor].
  - destruct ((start <? Py.str_len text) && (count <? max_chunks self))%bool eqn:E.
    + apply andb_prop in E as [E _]. apply Z.ltb_lt in E.
      destruct (window_end text chunk_size start <=? start) eqn:W.
      * injection Ho as <-. exists []. rewrite app_nil_r.
        split; [reflexivity|constructor].
      * apply Z.leb_gt in W.
        apply IH in Ho as [tail [-> Hr]].
        exists ((start, window_end text chunk_size start) :: tail).
        rewrite <- app_assoc. split; [reflexivity|].
        now constructor.
    + injection Ho as <-. exists []. rewrite app_nil_r.
      split; [reflexivity|constructor].
Qed.

Lemma run_progress (start : Z) (spans : list (Z * Z)) :
  run text chunk_size overlap start spans -> forall sp, In sp spans -> fst sp < snd sp.
Proof.
  induction 1 as [|start rest Hlt Hw Hr IH]; intros sp Hin.
  - destruct Hin.
  - destruct Hin as [<-|Hin]; [exact Hw | now apply IH].
Qed.

(** While the cursor has stayed at or after the beginning of the text,
    consecutive spans leave no gap: everything from the first cursor up
    to the right edge of span [k] lies in one of the spans [0..k]. *)
Lemma run_covers :
  0 <= overlap -> 0 < chunk_size ->
  forall start spans,
    run text chunk_size overlap start spans ->
    forall k s e,
      nth_error spans k = Some (s, e) ->
      forallb (fun sp => 0 <=? fst sp) (firstn (S k) spans) = true ->
      forall pos,
        start <= pos < e ->
        exists j sp,
          (j <= k)%nat /\ nth_error spans j = Some sp /\ span_covers text sp pos.
Proof.
  intros Hov Hcs start spans Hrun.
  induction Hrun as [|start rest Hlt Hw Hr IH]; intros k s e Hk Hnn pos Hpos.
  - destruct k; discriminate.
  - assert (H0 : 0 <= start).
    { simpl in Hnn. apply andb_prop in Hnn as [Hnn _].
      now apply Z.leb_le in Hnn. }
    pose proof (window_end_bounds text chunk_size start (conj H0 Hlt) Hcs) as Hb.
    destruct (Z.lt_ge_cases pos (window_end text chunk_size start)) as [Hin|Hout].
    + exists 0%nat, (start, window_end text chunk_size start).
      split; [lia|]. split; [reflexivity|].
      unfold span_covers; simpl. rewrite !adjust_id by lia. lia.
    + destruct k as [|k].
      * simpl in Hk. injection Hk as <- <-. lia.
      * simpl in Hk.
        assert (Hnn' : forallb (fun sp => 0 <=? fst sp) (firstn (S k) rest) = true).
        { change (firstn (S (S k)) ((start, window_end text chunk_size start) :: rest))
            with ((start, window_end text chunk_size start) :: firstn (S k) rest)
            in Hnn.
          simpl in Hnn. apply andb_prop in Hnn as [_ Hnn]. exact Hnn. }
        destruct (IH k s e Hk Hnn' pos) as [j [sp [Hj [Hsp Hc]]]]; [lia|].
        exists (S j), sp. split; [lia|]. split; assumption.
Qed.
End ChunkLoop.

(** ** chunk_text *)

Lemma chunk_text_fuel_enough (self : DocumentProcessor) (text : string)
    (chunk_size overlap : Z) (extra : nat) :
  chunk_text_fuel (Z.to_nat (max_chunks self) + extra) self text chunk_size overlap
  = Some (chunk_text self text chunk_size overlap).
Proof.
  unfold chunk_text, chunk_text_fuel.
  destruct (String.eqb text ""); [reflexivity|].
  destruct (chunk_loop_enough self text chunk_size
              (clamp_overlap chunk_size overlap)
              (Z.to_nat (max_chunks self)) 0 0 []) as [out [Ho _]].
  { unfold budget. rewrite Z.sub_0_r. lia. }
  rewrite Ho. now apply chunk_loop_more_fuel.
Qed.

Lemma chunk_text_length (self : DocumentProcessor) (text : string)
    (chunk_size overlap : Z) :
  (List.length (chunk_text self text chunk_size overlap)
   <= Z.to_nat (max_chunks self))%nat.
Proof.
  unfold chunk_text, chunk_text_fuel.
  destruct (String.eqb text ""); [simpl; lia|].
  destruct (chunk_loop_enough self text chunk_size
              (clamp_overlap chunk_size overlap)
              (Z.to_nat (max_chunks self)) 0 0 []) as [out [Ho Hl]].
  { unfold budget. rewrite Z.sub_0_r. lia. }
  rewrite Ho. unfold budget in Hl. rewrite Z.sub_0_r in Hl. simpl in Hl. exact Hl.
Qed.

Lemma chunk_text_spans (self : DocumentProcessor) (text : string)
    (chunk_size overlap : Z) :
  chunk_text self text chunk_size overlap
  = map (span_slice text) (chunk_spans self text chunk_size overlap).
Proof.
  unfold chunk_text, chunk_text_fuel, chunk_spans.
  destruct (String.eqb text ""); [reflexivity|].
  pose proof (chunk_loop_spans self text chunk_size
                (clamp_overlap chunk_size overlap)
                (Z.to_nat (max_chunks self)) 0 0 []) as Hs.
  simpl in Hs. rewrite Hs.
  destruct (span_loop _ _ _ _ _ _ _ _); reflexivity.
Qed.

Lemma chunk_spans_run (self : DocumentProcessor) (text : string)
    (chunk_size overlap : Z) :
  run text chunk_size (clamp_overlap chunk_size overlap) 0
    (chunk_spans self text chunk_size overlap).
Proof.
  unfold chunk_spans.
  destruct (String.eqb text ""); [constructor|].
  destruct (span_loop _ _ _ _ _ _ _ _) as [out|] eqn:Ho; [|constructor].
  apply span_loop_run in Ho as [tail [-> Hr]]. exact Hr.
Qed.

(** C1 (as amended).  With [0 <= overlap < chunk_size], [chunk_text]
    never returns more than [max_chunks] chunks (none when the cap is not
    positive); its chunks are the slices [text[start:end]] of the recorded
    spans; and if some span [k] ends at the end of the text while the
    cursor has not moved before the beginning of the text in spans
    [0..k], every character position of the text lies inside one of the
    spans [0..k]. *)
Theorem chunk_text_cap_and_coverage (self : DocumentProcessor) (text : string)
    (chunk_size overlap : Z) :
  0 <= overlap < chunk_size ->
  Z.of_nat (List.length (chunk_text self text chunk_size overlap))
    <= Z.max 0 (max_chunks self)
  /\ chunk_text self text chunk_size overlap
     = map (span_slice text) (chunk_spans self text chunk_size overlap)
  /\ forall k s,
       nth_error (chunk_spans self text chunk_size overlap) k
         = Some (s, Py.str_len text) ->
       forallb (fun sp => 0 <=? fst sp)
         (firstn (S k) (chunk_spans self text chunk_size overlap)) = true ->
       forall pos,
         0 <= pos < Py.str_len text ->
         exists j sp,
           (j <= k)%nat
           /\ nth_error (chunk_spans self text chunk_size overlap) j = Some sp
           /\ span_covers text sp pos.
Proof.
  intros Hov. split; [|split].
  - pose proof (chunk_text_length self text chunk_size overlap). lia.
  - apply chunk_text_spans.
  - intros k s Hk Hnn pos Hpos.
    pose proof (chunk_spans_run self text chunk_size overlap) as Hrun.
    assert (Hcl : clamp_overlap chunk_size overlap = overlap).
    { unfold clamp_overlap. destruct (overlap >=? chunk_size) eqn:E; [|reflexivity].
      apply Z.geb_le in E. lia. }
    rewrite Hcl in Hrun.
    eapply (run_covers text chunk_size overlap); eauto; lia.
Qed.

(** A run in which the hypotheses of [chunk_text_cap_and_coverage] hold:
    span 3 of ["hello world foo bar"] reaches the end of the text. *)
Lemma chunk_text_cap_and_coverage_witness :
  0 <= 2 < 8
  /\ exists j sp,
       (j <= 3)%nat
       /\ nth_error (chunk_spans (with_max_chunks 6) "hello world foo bar" 8 2) j
          = Some sp
       /\ span_covers "hello world foo bar" sp 13.
Proof.
  split; [lia|].
  refine (proj2 (proj2 (chunk_text_cap_and_coverage (with_max_chunks 6)
                          "hello world foo bar" 8 2 _)) 3%nat 14 _ _ 13 _).
  - lia.
  - reflexivity.
  - reflexivity.
  - vm_compute. split; congruence.
Defined.

(** C1 as stated fails: with a cap of two chunks, ["abc"] cut into
    one-character windows yields ["a"; "b"], and position 2 lies in no
    returned chunk. *)
Lemma chunk_text_cap_drops_characters :
  0 <= 0 < 1
  /\ 0 <= 2 < Py.str_len "abc"
  /\ chunk_text (with_max_chunks 2) "abc" 1 0 = ["a"; "b"]
  /\ chunk_spans (with_max_chunks 2) "abc" 1 0 = [(0, 1); (1, 2)]
  /\ ~ exists sp,
         In sp (chunk_spans (with_max_chunks 2) "abc" 1 0)
         /\ span_covers "abc" sp 2.
Proof.
  split; [lia|]. split; [vm_compute; split; congruence|].
  split; [reflexivity|]. split; [reflexivity|].
  intros [sp [Hin Hc]].
  change (chunk_spans (with_max_chunks 2) "abc" 1 0) with [(0, 1); (1, 2)] in Hin.
  destruct Hin as [<-|[<-|[]]]; cbv [span_covers fst snd] in Hc;
    change (Py.str_len "abc") with 3 in Hc; rewrite !adjust_id in Hc by lia; lia.
Qed.

(** The cursor can move before the beginning of the text: after the cut
    at the newline the next cursor is [2 - 3 = -1], the following chunk is
    empty, and positions 2 to 5 are in no chunk although later chunks
    reach the end of the text. *)
Example chunk_text_cursor_before_start :
  let text := "a" ++ String newline "bbbbbbbbbbbbbbbbbbbb" in
  chunk_spans (with_max_chunks 5) text 10 3
    = [(0, 2); (-1, 9); (6, 16); (13, 22); (19, 22)]
  /\ chunk_text (with_max_chunks 5) text 10 3
     = ["a" ++ String newline ""; ""; "bbbbbbbbbb"; "bbbbbbbbb"; "bbb"].
Proof. split; reflexivity. Qed.

(** With a positive overlap the loop does not stop at the end of the
    text: the last window is cut again until the cap is reached. *)
Example chunk_text_repeats_tail :
  chunk_text (with_max_chunks 6) "abc" 1000 200
  = ["abc"; "abc"; "abc"; "abc"; "abc"; "abc"].
Proof. reflexivity. Qed.

(** C8.  When [overlap >= chunk_size] the call does not fail, the overlap
    used is [max(0, chunk_size // 2)], which is [chunk_size // 2] for every
    non-negative [chunk_size], and the result is the one [chunk_text]
    gives for [overlap = chunk_size // 2]. *)
Theorem chunk_text_overlap_clamped (self : DocumentProcessor) (text : string)
    (chunk_size overlap : Z) :
  chunk_size <= overlap ->
  chunk_text self text chunk_size overlap
    = chunk_text self text chunk_size (chunk_size / 2)
  /\ clamp_overlap chunk_size overlap = Z.max 0 (chunk_size / 2)
  /\ (0 <= chunk_size -> clamp_overlap chunk_size overlap = chunk_size / 2)
  /\ forall extra,
       chunk_text_fuel (Z.to_nat (max_chunks self) + extra) self text
         chunk_size overlap
       = Some (chunk_text self text chunk_size (chunk_size / 2)).
Proof.
  intros Hge.
  assert (Hc : clamp_overlap chunk_size overlap = Z.max 0 (chunk_size / 2)).
  { unfold clamp_overlap. destruct (overlap >=? chunk_size) eqn:E; [reflexivity|].
    rewrite Z.geb_leb in E. apply Z.leb_gt in E. lia. }
  assert (Hh : clamp_overlap chunk_size (chunk_size / 2) = Z.max 0 (chunk_size / 2)).
  { unfold clamp_overlap.
    destruct (chunk_size / 2 >=? chunk_size) eqn:E; [reflexivity|].
    rewrite Z.geb_leb in E. apply Z.leb_gt in E.
    assert (0 <= chunk_size / 2); [|lia].
    apply Z.div_pos; [|lia].
    destruct (Z.lt_ge_cases chunk_size 0) as [Hneg|]; [|assumption].
    pose proof (Z.mul_div_le chunk_size 2 ltac:(lia)).
    pose proof (Z.mod_pos_bound chunk_size 2 ltac:(lia)).
    pose proof (Z.div_mod chunk_size 2 ltac:(lia)). lia. }
  assert (Heq : chunk_text self text chunk_size overlap
                = chunk_text self text chunk_size (chunk_size / 2)).
  { unfold chunk_text, chunk_text_fuel. rewrite Hc, Hh. reflexivity. }
  split; [exact Heq|]. split; [exact Hc|]. split.
  - intros Hpos. rewrite Hc. apply Z.max_r. apply Z.div_pos; lia.
  - intros extra. rewrite <- Heq. apply chunk_text_fuel_enough.
Qed.

Lemma chunk_text_overlap_clamped_witness :
  1000 <= 1500
  /\ chunk_text (with_max_chunks 4) "stock levels by warehouse" 1000 1500
     = chunk_text (with_max_chunks 4) "stock levels by warehouse" 1000 (1000 / 2).
Proof.
  split; [lia|].
  apply (chunk_text_overlap_clamped (with_max_chunks 4)
           "stock levels by warehouse" 1000 1500).
  lia.
Defined.

(** C9.  [chunk_text] terminates on every input: the loop needs no more
    than [max_chunks] iterations, any larger bound gives the same list,
    that list has at most [max_chunks] elements, and every iteration that
    appended a chunk had moved the window's right edge beyond the
    cursor. *)
Theorem chunk_text_terminates (self : DocumentProcessor) (text : string)
    (chunk_size overlap : Z) (extra : nat) :
  chunk_text_fuel (Z.to_nat (max_chunks self) + extra) self text chunk_size overlap
    = Some (chunk_text self text chunk_size overlap)
  /\ (List.length (chunk_text self text chunk_size overlap)
      <= Z.to_nat (max_chunks self))%nat
  /\ Forall (fun sp => fst sp < snd sp)
       (chunk_spans self text chunk_size overlap).
Proof.
  split; [apply chunk_text_fuel_enough|].
  split; [apply chunk_text_length|].
  apply Forall_forall.
  apply (run_progress text chunk_size (clamp_overlap chunk_size overlap) 0).
  apply chunk_spans_run.
Qed.

(** ** extract_text *)

Lemma extract_text_returns (self : DocumentProcessor) (fs : FileSystem)
    (file_path : string) :
  exists text, extract_text self fs file_path = Returns text.
Proof.
  unfold extract_text.
  repeat match goal with
         | |- context [if ?b then _ else _] => destruct b
         | |- context [match ?c with Returns _ => _ | Raises _ => _ end] => destruct c
         end; eexists; reflexivity.
Qed.

(** C4 (as amended).  [extract_text] never raises.  For a [.txt] or
    [.csv] file whose read fails, the exception is caught and the empty
    string is returned; [process_document] then returns no chunk at all,
    so nothing of that document reaches the index. *)
Theorem extract_text_read_failure_gives_empty `{Backend} `{ChunkEncoder}
    (self : DocumentProcessor) (fs : FileSystem) (uuid4 : Z -> string)
    (file_path : string) (metadata : option metadata_t) :
  (lower (snd (splitext file_path)) = ".txt" /\ raises (read_text fs file_path))
  \/ (lower (snd (splitext file_path)) = ".csv"
      /\ raises (read_csv_head fs file_path)) ->
  extract_text self fs file_path = Returns ""
  /\ process_document self fs uuid4 file_path metadata = Returns []
  /\ forall path, ~ raises (extract_text self fs path).
Proof.
  intros Hfail.
  assert (Hx : extract_text self fs file_path = Returns "").
  { unfold extract_text.
    destruct Hfail as [[-> [e ->]] | [-> [e ->]]]; reflexivity. }
  split; [exact Hx|]. split.
  - unfold process_document. rewrite Hx.
    destruct (negb (is_supported_file self file_path)); reflexivity.
  - intros path [e He].
    destruct (extract_text_returns self fs path) as [text Ht]. congruence.
Qed.

Lemma extract_text_read_failure_gives_empty_witness :
  (lower (snd (splitext "uploads/report.txt")) = ".txt"
   /\ raises (read_text unreadable "uploads/report.txt")
   \/ lower (snd (splitext "uploads/report.txt")) = ".csv"
      /\ raises (read_csv_head unreadable "uploads/report.txt"))
  /\ extract_text default_processor unreadable "uploads/report.txt" = Returns "".
Proof.
  assert (Hh : lower (snd (splitext "uploads/report.txt")) = ".txt"
               /\ raises (read_text unreadable "uploads/report.txt")
               \/ lower (snd (splitext "uploads/report.txt")) = ".csv"
                  /\ raises (read_csv_head unreadable "uploads/report.txt")).
  { left. split; [reflexivity | exists OSError; reflexivity]. }
  split; [exact Hh|].
  exact (proj1 (extract_text_read_failure_gives_empty default_processor unreadable
                  (fun _ => "") "uploads/report.txt" None Hh)).
Defined.

(** C4 as stated fails: the extension [.txt] is registered, reading
    raises, and [extract_text] returns the empty string instead of
    raising. *)
Lemma extract_text_swallows_read_error :
  is_supported_file default_processor "uploads/report.txt" = true
  /\ read_text unreadable "uploads/report.txt" = Raises OSError
  /\ extract_text default_processor unreadable "uploads/report.txt" = Returns ""
  /\ ~ raises (extract_text default_processor unreadable "uploads/report.txt").
Proof.
  split; [reflexivity|]. split; [reflexivity|]. split; [reflexivity|].
  intros [e He]. discriminate He.
Qed.

(** The three mock formats are not read at all. *)
Example extract_text_pdf_ignores_file_system :
  extract_text default_processor unreadable "uploads/Plan.PDF"
  = Returns "Mock PDF content from Plan.PDF".
Proof. reflexivity. Qed.

(** ** The local store *)

Lemma slice_nil {A : Type} (i j : Z) : Py.slice (@nil A) i j = [].
Proof.
  unfold Py.slice. rewrite skipn_nil. apply firstn_nil.
Qed.

Lemma slice_firstn {A : Type} (l : list A) (k : Z) :
  0 <= k -> Py.slice l 0 k = firstn (Z.to_nat k) l.
Proof.
  intros Hk. unfold Py.slice.
  assert (H0 : Py.adjust (Py.len l) 0 = 0) by (apply adjust_id; unfold Py.len; lia).
  rewrite H0. change (Z.to_nat 0) with 0%nat. rewrite skipn_O, Z.sub_0_r.
  unfold Py.adjust, Py.len.
  destruct (k <? 0) eqn:E; [apply Z.ltb_lt in E; lia|].
  destruct (Z.le_gt_cases k (Z.of_nat (List.length l))) as [Hle|Hgt].
  - rewrite Z.min_l by lia. reflexivity.
  - rewrite Z.min_r by lia. rewrite Nat2Z.id.
    rewrite !firstn_all2; [reflexivity | lia | lia].
Qed.

Section Store.
Context `{Backend}.


Lemma search_empty_mock (query : string) (top_k : Z) :
  search (MockHandler []) query top_k = Returns [].
Proof.
  unfold search, _mock_search. simpl. rewrite slice_nil. reflexivity.
Qed.

(** C7.  A local query over no records returns the empty list, for
    every query vector and every [top_k]; and whenever the search of a
    handler finds nothing, as it does on the empty local store,
    [get_answer] returns the canned answer with no sources. *)
Theorem empty_index_boundary :
  (forall query_vector top_k, _mock_search [] query_vector top_k = Returns [])
  /\ (forall query,
        get_answer (MockHandler []) query
        = Returns {| answer := insufficient_information; sources := [] |})
  /\ (forall self query,
        search self query 3 = Returns [] ->
        get_answer self query
        = Returns {| answer := insufficient_information; sources := [] |}).
Proof.
  split; [|split].
  - intros qv k. unfold _mock_search. simpl. rewrite slice_nil. reflexivity.
  - intros query. unfold get_answer. rewrite search_empty_mock. reflexivity.
  - intros self query Hs. unfold get_answer. rewrite Hs. reflexivity.
Qed.

(** Every dictionary [search] returns has the keys [id], [score] and
    [metadata] and no other. *)
Lemma search_results_shape (self : RAGHandler) (query : string) (top_k : Z)
    (results : list pydict) :
  search self query top_k = Returns results ->
  Forall (fun r => exists id score metadata, r = result_dict id score metadata)
    results.
Proof.
  unfold search. destruct self as [mv|index].
  - unfold _mock_search.
    destruct (mapM _ mv) as [sims|e]; simpl; [|discriminate].
    intros Hr. injection Hr as <-.
    apply Forall_forall. intros r Hin. apply in_map_iff in Hin as [ds [<- _]].
    eauto.
  - destruct (index_query index (embed_text query) top_k) as [matches|e];
      [|discriminate].
    intros Hr. injection Hr as <-.
    apply Forall_forall. intros r Hin. apply in_map_iff in Hin as [m [<- _]].
    eauto.
Qed.

(** As soon as the search finds anything, [get_answer] fails on
    [result["text"]]: the text is stored under [metadata], not at the top
    level of a result. *)
Lemma get_answer_key_error (self : RAGHandler) (query : string)
    (r : pydict) (rs : list pydict) :
  search self query 3 = Returns (r :: rs) ->
  get_answer self query = Raises (KeyError "text").
Proof.
  intros Hs. unfold get_answer. rewrite Hs. simpl.
  apply search_results_shape in Hs.
  inversion Hs as [|r' rs' [id [score [metadata ->]]] _]; subst.
  reflexivity.
Qed.
End Store.

Lemma empty_index_boundary_witness :
  search (MockHandler []) "inventory turnover" 3 = Returns []
  /\ get_answer (MockHandler []) "inventory turnover"
     = Returns {| answer := insufficient_information; sources := [] |}.
Proof.
  split; [reflexivity|].
  apply (proj2 (proj2 empty_index_boundary)). reflexivity.
Defined.


(** ** get_answer on a store that holds the answer *)

Section AnswerFromStore.
Context `{Backend}.

Lemma sort_desc_singleton {A : Type} (x : A * float) : sort_desc [x] = [x].
Proof. reflexivity. Qed.

Lemma mock_search_single (doc : StoredDoc) (query_vector : list float) :
  _mock_search [doc] query_vector 3
  = (if Nat.eqb (List.length query_vector) (List.length (doc_vector doc))
     then Returns
            [result_dict (doc_id doc)
               (fdiv (dot_sum query_vector (doc_vector doc))
                  (fmul (np_linalg_norm query_vector)
                     (np_linalg_norm (doc_vector doc))))
               (doc_metadata doc)]
     else Raises ValueError).
Proof.
  unfold _mock_search, _cosine_similarity, np_dot. simpl.
  destruct (Nat.eqb _ _); reflexivity.
Qed.

(** C2, on the code.  Store one record through [add_document] and ask
    for it back: [get_answer] never returns.  It raises [KeyError] on
    [result["text"]], or [ValueError] from [np.dot] when the query and the
    record were embedded to different lengths. *)
Theorem get_answer_raises_on_single_record
    (id text query : string) (metadata : option metadata_t) (top_k : Z) :
  let self := snd (add_document (MockHandler []) id text metadata) in
  (get_answer self query = Raises (KeyError "text")
   \/ get_answer self query = Raises ValueError)
  /\ (search self query 3 = Raises ValueError
      \/ get_answer self query = Raises (KeyError "text"))
  /\ raises (get_answer self query).
Proof.
  simpl.
  set (doc := {| doc_id := id; doc_vector := embed_text text;
                 doc_metadata := _ |}).
  assert (Hs : search (MockHandler [doc]) query 3
               = _mock_search [doc] (embed_text query) 3) by reflexivity.
  rewrite mock_search_single in Hs.
  destruct (Nat.eqb _ _).
  - pose proof (get_answer_key_error _ _ _ _ Hs) as Hk.
    split; [now left|]. split; [now right|]. eexists; exact Hk.
  - assert (Hv : get_answer (MockHandler [doc]) query = Raises ValueError).
    { unfold get_answer. rewrite Hs. reflexivity. }
    split; [now right|]. split; [now left|]. eexists; exact Hv.
Qed.
End AnswerFromStore.

(** The scenario of C2 run on the code: one stored chunk containing the
    phrase, queried with the phrase. *)
Example get_answer_inventory_turnover :
  let self :=
    snd (add_document (MockHandler []) "chunk-1"
           "inventory turnover measures how often stock is sold" None) in
  search self "inventory turnover" 3
  = Returns
      [result_dict "chunk-1" fone
         [("text", "inventory turnover measures how often stock is sold")]]
  /\ get_answer self "inventory turnover" = Raises (KeyError "text").
Proof. split; reflexivity. Qed.

(** ** Ordering of scores *)

Lemma SFltb_rank (x y : float) :
  is_nan x = false -> is_nan y = false ->
  SFltb x y = true <-> rank_lt (rank x) (rank y).
Proof. intros Hx Hy. float_cases; compare_cases. Qed.

Lemma SFleb_rank (x y : float) :
  is_nan x = false -> is_nan y = false ->
  SFleb x y = true <-> ~ rank_lt (rank y) (rank x).
Proof. intros Hx Hy. float_cases; compare_cases. Qed.

Lemma SFeqb_rank (x y : float) :
  is_nan x = false -> is_nan y = false ->
  SFeqb x y = true <-> rank_eq (rank x) (rank y).
Proof. intros Hx Hy. float_cases; compare_cases. Qed.

Lemma SFeqb_not_nan (x y : float) :
  SFeqb x y = true -> is_nan x = false /\ is_nan y = false.
Proof. destruct x, y; simpl; intros Hq; try discriminate; split; reflexivity. Qed.

(** ** The descending stable sort *)

Section SortDesc.
Context {A : Type}.

Lemma insert_desc_perm (x : A * float) (l : list (A * float)) :
  Permutation (insert_desc x l) (x :: l).
Proof.
  induction l as [|y l IH]; simpl.
  - apply Permutation_refl.
  - destruct (SFltb (snd x) (snd y)).
    + eapply perm_trans; [apply perm_skip, IH | apply perm_swap].
    + apply Permutation_refl.
Qed.

Lemma sort_desc_perm (l : list (A * float)) : Permutation (sort_desc l) l.
Proof.
  induction l as [|x l IH]; simpl.
  - apply perm_nil.
  - eapply perm_trans; [apply insert_desc_perm | apply perm_skip, IH].
Qed.

Lemma score_ge_of_not_lt (x y : A * float) :
  numeric x -> numeric y -> SFltb (snd x) (snd y) = false -> score_ge x y.
Proof.
  unfold numeric, score_ge. intros Hx Hy Hlt.
  apply SFleb_rank; [assumption..|].
  intros Hr. apply (SFltb_rank _ _ Hx Hy) in Hr. congruence.
Qed.

Lemma score_ge_of_lt (x y : A * float) :
  numeric x -> numeric y -> SFltb (snd x) (snd y) = true -> score_ge y x.
Proof.
  unfold numeric, score_ge. intros Hx Hy Hlt.
  apply (SFltb_rank _ _ Hx Hy) in Hlt.
  apply SFleb_rank; [assumption..|].
  unfold rank_lt in *. lia.
Qed.

Lemma score_ge_trans (x y z : A * float) :
  numeric x -> numeric y -> numeric z ->
  score_ge x y -> score_ge y z -> score_ge x z.
Proof.
  unfold numeric, score_ge. intros Hx Hy Hz Hxy Hyz.
  apply SFleb_rank in Hxy; [|assumption..].
  apply SFleb_rank in Hyz; [|assumption..].
  apply SFleb_rank; [assumption..|].
  unfold rank_lt in *. lia.
Qed.

Lemma insert_desc_sorted (x : A * float) (l : list (A * float)) :
  numeric x -> Forall numeric l ->
  StronglySorted score_ge l -> StronglySorted score_ge (insert_desc x l).
Proof.
  intros Hx Hl Hs. induction l as [|y l IH]; simpl.
  - constructor; constructor.
  - apply StronglySorted_inv in Hs as [Hs Hy].
    inversion Hl as [|y' l' Hny Hnl]; subst.
    destruct (SFltb (snd x) (snd y)) eqn:E.
    + constructor; [now apply IH|].
      eapply Permutation_Forall; [apply Permutation_sym, insert_desc_perm|].
      constructor; [now apply score_ge_of_lt | exact Hy].
    + assert (Hxy : score_ge x y) by now apply score_ge_of_not_lt.
      constructor; [now constructor|].
      constructor; [exact Hxy|].
      rewrite Forall_forall in *. intros z Hz.
      apply (score_ge_trans x y z); auto.
Qed.

Lemma sort_desc_sorted (l : list (A * float)) :
  Forall numeric l -> StronglySorted score_ge (sort_desc l).
Proof.
  induction l as [|x l IH]; intros Hl; simpl.
  - constructor.
  - inversion Hl as [|x' l' Hx Hl']; subst.
    apply insert_desc_sorted; [assumption | | now apply IH].
    eapply Permutation_Forall; [apply Permutation_sym, sort_desc_perm | exact Hl'].
Qed.

(** Two scores equal to the same score are not ordered by [<]. *)
Lemma score_is_not_lt (s : float) (x y : A * float) :
  score_is s x = true -> score_is s y = true -> SFltb (snd x) (snd y) = false.
Proof.
  unfold score_is. intros Hx Hy.
  destruct (SFeqb_not_nan _ _ Hx) as [Nx Ns].
  destruct (SFeqb_not_nan _ _ Hy) as [Ny _].
  apply (SFeqb_rank _ _ Nx Ns) in Hx. apply (SFeqb_rank _ _ Ny Ns) in Hy.
  destruct (SFltb (snd x) (snd y)) eqn:E; [|reflexivity].
  apply (SFltb_rank _ _ Nx Ny) in E.
  unfold rank_lt, rank_eq in *. lia.
Qed.

(** Insertion never moves an element past another of equal score. *)
Lemma insert_desc_stable (s : float) (x : A * float) (l : list (A * float)) :
  filter (score_is s) (insert_desc x l) = filter (score_is s) (x :: l).
Proof.
  induction l as [|y l IH]; [reflexivity|].
  simpl insert_desc. destruct (SFltb (snd x) (snd y)) eqn:E; [|reflexivity].
  simpl filter in *. rewrite IH.
  destruct (score_is s x) eqn:Ex; destruct (score_is s y) eqn:Ey; try reflexivity.
  rewrite (score_is_not_lt s x y Ex Ey) in E. discriminate.
Qed.

Lemma sort_desc_stable (s : float) (l : list (A * float)) :
  filter (score_is s) (sort_desc l) = filter (score_is s) l.
Proof.
  induction l as [|x l IH]; [reflexivity|].
  simpl sort_desc. rewrite insert_desc_stable. simpl. now rewrite IH.
Qed.

Lemma StronglySorted_firstn (R : A * float -> A * float -> Prop)
    (n : nat) (l : list (A * float)) :
  StronglySorted R l -> StronglySorted R (firstn n l).
Proof.
  revert l. induction n as [|n IH]; intros l Hs; [constructor|].
  destruct l as [|x l]; [constructor|].
  apply StronglySorted_inv in Hs as [Hs Hx]. simpl.
  constructor; [now apply IH|].
  rewrite Forall_forall in *. intros y Hy. apply Hx.
  rewrite <- (firstn_skipn n l). apply in_or_app. now left.
Qed.
End SortDesc.

(** ** _mock_search *)

Lemma cosine_similarity_value (vec1 vec2 : list float) :
  List.length vec2 = List.length vec1 ->
  _cosine_similarity vec1 vec2 = Returns (cosine_value vec1 vec2).
Proof.
  intros Hl. unfold _cosine_similarity, np_dot.
  rewrite Hl, Nat.eqb_refl. reflexivity.
Qed.

Lemma similarities_scored (query_vector : list float) (store : list StoredDoc) :
  Forall (same_shape query_vector) store ->
  mapM (fun doc =>
          similarity <- _cosine_similarity query_vector (doc_vector doc) ;;
          Returns (doc, similarity)) store
  = Returns (map (scored query_vector) store).
Proof.
  induction 1 as [|doc store Hd Hs IH]; [reflexivity|].
  simpl. rewrite (cosine_similarity_value _ _ Hd). simpl. rewrite IH. reflexivity.
Qed.

Lemma mock_search_hits (store : list StoredDoc) (query_vector : list float)
    (top_k : Z) :
  Forall (same_shape query_vector) store ->
  _mock_search store query_vector top_k
  = Returns (map hit_dict
               (Py.slice (sort_desc (map (scored query_vector) store)) 0 top_k)).
Proof.
  intros Hs. unfold _mock_search. rewrite (similarities_scored _ _ Hs). reflexivity.
Qed.

Lemma filter_scored (query_vector : list float) (s : float) (store : list StoredDoc) :
  map fst (filter (score_is s) (map (scored query_vector) store))
  = filter (fun doc => SFeqb (cosine_value query_vector (doc_vector doc)) s) store.
Proof.
  induction store as [|doc store IH]; [reflexivity|].
  simpl. unfold score_is at 1. simpl.
  destruct (SFeqb _ s); simpl; now rewrite IH.
Qed.

(** C5 (as amended).  When [top_k >= 0], every stored vector has the
    shape of the query vector and every cosine score is a number (not
    NaN), [_mock_search] returns at most [top_k] results, each a stored
    record with its cosine score, in descending score order, and for every
    score value the results carrying it are the first stored records
    with that score, in insertion order. *)
Theorem mock_search_sorted_stable (store : list StoredDoc)
    (query_vector : list float) (top_k : Z) :
  0 <= top_k ->
  Forall (same_shape query_vector) store ->
  Forall (fun doc => is_nan (cosine_value query_vector (doc_vector doc)) = false)
    store ->
  exists hits,
    _mock_search store query_vector top_k = Returns (map hit_dict hits)
    /\ Z.of_nat (List.length hits) <= top_k
    /\ StronglySorted score_ge hits
    /\ Forall (fun h => In (fst h) store
                        /\ snd h = cosine_value query_vector (doc_vector (fst h)))
         hits
    /\ forall s, exists later,
         filter (fun doc => SFeqb (cosine_value query_vector (doc_vector doc)) s)
           store
         = (map fst (filter (score_is s) hits) ++ later)%list.
Proof.
  intros Hk Hshape Hnum.
  set (sims := map (scored query_vector) store).
  exists (firstn (Z.to_nat top_k) (sort_desc sims)).
  assert (Hn : Forall numeric sims).
  { unfold sims. apply Forall_map. exact Hnum. }
  split; [|split; [|split; [|split]]].
  - rewrite (mock_search_hits _ _ _ Hshape), slice_firstn by exact Hk. reflexivity.
  - pose proof (firstn_le_length (Z.to_nat top_k) (sort_desc sims)). lia.
  - apply StronglySorted_firstn, sort_desc_sorted, Hn.
  - apply Forall_forall. intros h Hin.
    assert (Hs : In h sims).
    { apply (Permutation_in _ (sort_desc_perm sims)).
      rewrite <- (firstn_skipn (Z.to_nat top_k) (sort_desc sims)).
      apply in_or_app. now left. }
    unfold sims in Hs. apply in_map_iff in Hs as [doc [<- Hdoc]].
    split; [exact Hdoc | reflexivity].
  - intros s.
    exists (map fst (filter (score_is s) (skipn (Z.to_nat top_k) (sort_desc sims)))).
    rewrite <- map_app, <- filter_app, firstn_skipn, sort_desc_stable.
    unfold sims. symmetry. apply filter_scored.
Qed.

Lemma mock_search_sorted_stable_witness :
  0 <= 2
  /\ Forall (same_shape [fone]) three_docs
  /\ Forall (fun doc => is_nan (cosine_value [fone] (doc_vector doc)) = false)
       three_docs
  /\ exists hits,
       _mock_search three_docs [fone] 2 = Returns (map hit_dict hits)
       /\ Z.of_nat (List.length hits) <= 2.
Proof.
  assert (H0 : 0 <= 2) by lia.
  assert (H1 : Forall (same_shape [fone]) three_docs)
    by (repeat constructor).
  assert (H2 : Forall (fun doc => is_nan (cosine_value [fone] (doc_vector doc)) = false)
                 three_docs)
    by (repeat constructor).
  split; [exact H0|]. split; [exact H1|]. split; [exact H2|].
  destruct (mock_search_sorted_stable three_docs [fone] 2 H0 H1 H2)
    as [hits [Hr [Hl _]]].
  exists hits. split; assumption.
Defined.

(** C5 as stated fails: with a zero vector in the store, its score is NaN
    and the results come back with the lower score 0.7071... ahead of the
    score 1.0. *)
Lemma mock_search_unsorted_with_zero_vector :
  _mock_search
    [bare_doc "a" [fone; fone]; bare_doc "b" [fzero; fzero]; bare_doc "c" [fone; fzero]]
    [fone; fzero] 5
  = Returns
      [result_dict "a" half_sqrt2 [];
       result_dict "b" S754_nan [];
       result_dict "c" fone []]
  /\ SFltb half_sqrt2 fone = true
  /\ SFleb fone half_sqrt2 = false.
Proof. repeat split. Qed.

(** A negative [top_k] drops results from the end instead of limiting
    their number. *)
Example mock_search_negative_top_k :
  _mock_search [bare_doc "a" [fone]; bare_doc "b" [fone]] [fone] (-1)
  = Returns [result_dict "a" fone []].
Proof. reflexivity. Qed.

(** ** _cosine_similarity on zero vectors *)

Lemma fmul_zero_l (x y : float) :
  is_zero x = true -> zero_or_nan (fmul x y) = true.
Proof. destruct x, y; simpl; intros Hx; try discriminate; reflexivity. Qed.

Lemma fmul_zero_r (x y : float) :
  is_zero y = true -> zero_or_nan (fmul x y) = true.
Proof. destruct x, y; simpl; intros Hy; try discriminate; reflexivity. Qed.

Lemma fmul_zero_zero (x y : float) :
  is_zero x = true -> is_zero y = true -> is_zero (fmul x y) = true.
Proof. destruct x, y; simpl; intros Hx Hy; try discriminate; reflexivity. Qed.

Lemma fadd_zero_or_nan (x y : float) :
  zero_or_nan x = true -> zero_or_nan y = true -> zero_or_nan (fadd x y) = true.
Proof.
  destruct x as [[|]| | |], y as [[|]| | |]; simpl; intros Hx Hy;
    try discriminate; reflexivity.
Qed.

Lemma fadd_zero_zero (x y : float) :
  is_zero x = true -> is_zero y = true -> is_zero (fadd x y) = true.
Proof.
  destruct x as [[|]| | |], y as [[|]| | |]; simpl; intros Hx Hy;
    try discriminate; reflexivity.
Qed.

Lemma fsqrt_zero (x : float) : is_zero x = true -> is_zero (fsqrt x) = true.
Proof. destruct x; simpl; intros Hx; try discriminate; reflexivity. Qed.

Lemma fdiv_zero_or_nan (x y : float) :
  zero_or_nan x = true -> zero_or_nan y = true -> fdiv x y = S754_nan.
Proof. destruct x, y; simpl; intros Hx Hy; try discriminate; reflexivity. Qed.

Lemma is_zero_zero_or_nan (x : float) : is_zero x = true -> zero_or_nan x = true.
Proof. unfold zero_or_nan. now intros ->. Qed.

Lemma dot_fold_zero_l (v1 v2 : list float) :
  forallb is_zero v1 = true ->
  forall acc, zero_or_nan acc = true ->
    zero_or_nan
      (fold_left (fun acc ab => fadd acc (fmul (fst ab) (snd ab))) (combine v1 v2) acc)
    = true.
Proof.
  revert v2. induction v1 as [|a v1 IH]; intros v2 Hz acc Hacc; [exact Hacc|].
  destruct v2 as [|b v2]; [exact Hacc|].
  simpl in Hz. apply andb_prop in Hz as [Ha Hz]. simpl.
  apply IH; [exact Hz|]. apply fadd_zero_or_nan; [exact Hacc|].
  now apply fmul_zero_l.
Qed.

Lemma dot_fold_zero_r (v1 v2 : list float) :
  forallb is_zero v2 = true ->
  forall acc, zero_or_nan acc = true ->
    zero_or_nan
      (fold_left (fun acc ab => fadd acc (fmul (fst ab) (snd ab))) (combine v1 v2) acc)
    = true.
Proof.
  revert v2. induction v1 as [|a v1 IH]; intros v2 Hz acc Hacc; [exact Hacc|].
  destruct v2 as [|b v2]; [exact Hacc|].
  simpl in Hz. apply andb_prop in Hz as [Hb Hz]. simpl.
  apply IH; [exact Hz|]. apply fadd_zero_or_nan; [exact Hacc|].
  now apply fmul_zero_r.
Qed.

Lemma dot_fold_self_zero (v : list float) :
  forallb is_zero v = true ->
  forall acc, is_zero acc = true ->
    is_zero
      (fold_left (fun acc ab => fadd acc (fmul (fst ab) (snd ab))) (combine v v) acc)
    = true.
Proof.
  induction v as [|a v IH]; intros Hz acc Hacc; [exact Hacc|].
  simpl in Hz. apply andb_prop in Hz as [Ha Hz]. simpl.
  apply IH; [exact Hz|]. apply fadd_zero_zero; [exact Hacc|].
  now apply fmul_zero_zero.
Qed.

(** The norm of a vector of zeros is zero. *)
Lemma norm_zero (v : list float) :
  forallb is_zero v = true -> is_zero (np_linalg_norm v) = true.
Proof.
  intros Hz. unfold np_linalg_norm, dot_sum.
  apply fsqrt_zero, dot_fold_self_zero; [exact Hz | reflexivity].
Qed.

Lemma cosine_value_zero (vec1 vec2 : list float) :
  forallb is_zero vec1 = true \/ forallb is_zero vec2 = true ->
  zero_or_nan (fmul (np_linalg_norm vec1) (np_linalg_norm vec2)) = true
  /\ cosine_value vec1 vec2 = S754_nan.
Proof.
  intros Hz.
  assert (Hden : zero_or_nan (fmul (np_linalg_norm vec1) (np_linalg_norm vec2)) = true).
  { destruct Hz as [Hz|Hz].
    - apply fmul_zero_l, norm_zero, Hz.
    - apply fmul_zero_r, norm_zero, Hz. }
  split; [exact Hden|].
  unfold cosine_value. apply fdiv_zero_or_nan; [|exact Hden].
  unfold dot_sum. destruct Hz as [Hz|Hz].
  - now apply dot_fold_zero_l.
  - now apply dot_fold_zero_r.
Qed.

(** C10.  When one of two vectors has only zero components, its norm is
    zero, the divisor of [_cosine_similarity] is zero (or NaN), and the
    division is carried out all the same: for vectors of one shape the
    score returned is NaN, which is not a number between -1 and 1 (for
    vectors of different shapes [np.dot] has raised before).  A local
    search meets this division for every stored zero vector, and for every
    stored vector when the query vector is zero: the record enters the
    list being sorted with a NaN score. *)
Theorem cosine_similarity_zero_vector_nan (vec1 vec2 : list float) :
  forallb is_zero vec1 = true \/ forallb is_zero vec2 = true ->
  (is_zero (np_linalg_norm vec1) = true \/ is_zero (np_linalg_norm vec2) = true)
  /\ zero_or_nan (fmul (np_linalg_norm vec1) (np_linalg_norm vec2)) = true
  /\ _cosine_similarity vec1 vec2
     = (if Nat.eqb (List.length vec1) (List.length vec2)
        then Returns S754_nan else Raises ValueError)
  /\ in_cosine_range S754_nan = false
  /\ forall store doc top_k,
       Forall (same_shape vec1) store -> In doc store -> doc_vector doc = vec2 ->
       exists similarities,
         _mock_search store vec1 top_k
         = Returns (map hit_dict (Py.slice (sort_desc similarities) 0 top_k))
         /\ In (doc, S754_nan) similarities.
Proof.
  intros Hz.
  destruct (cosine_value_zero vec1 vec2 Hz) as [Hden Hnan].
  split; [|split; [|split; [|split]]].
  - destruct Hz as [Hz|Hz]; [left | right]; now apply norm_zero.
  - exact Hden.
  - unfold _cosine_similarity, np_dot.
    destruct (Nat.eqb _ _); [|reflexivity].
    simpl. fold (cosine_value vec1 vec2). now rewrite Hnan.
  - reflexivity.
  - intros store doc top_k Hs Hin Hv.
    exists (map (scored vec1) store). split.
    + now apply mock_search_hits.
    + apply in_map_iff. exists doc. split; [|exact Hin].
      unfold scored. now rewrite Hv, Hnan.
Qed.

Lemma cosine_similarity_zero_vector_nan_witness :
  (forallb is_zero [fone; fzero] = true \/ forallb is_zero [fzero; fzero] = true)
  /\ _cosine_similarity [fone; fzero] [fzero; fzero] = Returns S754_nan.
Proof.
  assert (H2 : forallb is_zero [fone; fzero] = true
               \/ forallb is_zero [fzero; fzero] = true) by (right; reflexivity).
  split; [exact H2|].
  exact (proj1 (proj2 (proj2
           (cosine_similarity_zero_vector_nan [fone; fzero] [fzero; fzero] H2)))).
Defined.

(** ** Answer synthesis *)

Lemma append_assoc (a b c : string) : (a ++ b) ++ c = a ++ (b ++ c).
Proof. induction a as [|x a IH]; simpl; [reflexivity | now rewrite IH]. Qed.

Lemma list_ascii_append (a b : string) :
  list_ascii_of_string (a ++ b)
  = (list_ascii_of_string a ++ list_ascii_of_string b)%list.
Proof. induction a as [|x a IH]; simpl; [reflexivity | now rewrite IH]. Qed.

Lemma string_of_list_app (l1 l2 : list ascii) :
  string_of_list_ascii (l1 ++ l2)
  = string_of_list_ascii l1 ++ string_of_list_ascii l2.
Proof. induction l1 as [|x l1 IH]; simpl; [reflexivity | now rewrite IH]. Qed.

Lemma str_len_append (a b : string) :
  Py.str_len (a ++ b) = Py.str_len a + Py.str_len b.
Proof.
  unfold Py.str_len, Py.len. rewrite list_ascii_append, length_app. lia.
Qed.

(** [s[:k]] is the prefix of length [k] when [s] has at least [k]
    characters. *)
Lemma str_slice_prefix (s : string) (k : Z) :
  0 <= k <= Py.str_len s ->
  Py.str_len (Py.str_slice s 0 k) = k
  /\ exists rest, s = Py.str_slice s 0 k ++ rest.
Proof.
  intros Hk. unfold Py.str_slice, Py.str_len, Py.len in *.
  rewrite slice_firstn by lia. split.
  - rewrite list_ascii_of_string_of_list_ascii, length_firstn. lia.
  - exists (string_of_list_ascii (skipn (Z.to_nat k) (list_ascii_of_string s))).
    rewrite <- string_of_list_app, firstn_skipn.
    symmetry. apply string_of_list_ascii_of_string.
Qed.

(** An excerpt is the text itself when it has at most 300 characters,
    else its first 300 characters followed by three dots. *)
Lemma ctx_preview_spec (ctx : string) :
  (Py.str_len ctx <= 300 -> ctx_preview ctx = ctx)
  /\ (300 < Py.str_len ctx ->
      ctx_preview ctx = Py.str_slice ctx 0 300 ++ "..."
      /\ Py.str_len (ctx_preview ctx) = 303
      /\ exists rest, ctx = Py.str_slice ctx 0 300 ++ rest).
Proof.
  unfold ctx_preview. split; intros Hl.
  - destruct (Py.str_len ctx >? 300) eqn:E; [|reflexivity].
    apply Z.gtb_lt in E. lia.
  - destruct (Py.str_len ctx >? 300) eqn:E.
    + destruct (str_slice_prefix ctx 300) as [Hp Hr]; [lia|].
      split; [reflexivity|]. split; [|exact Hr].
      rewrite str_len_append, Hp. reflexivity.
    + rewrite Z.gtb_ltb in E. apply Z.ltb_ge in E. lia.
Qed.

Lemma append_empty_r (s : string) : s ++ "" = s.
Proof. induction s as [|x s IH]; simpl; [reflexivity | now rewrite IH]. Qed.

Lemma concat_cons (x : string) (l : list string) :
  String.concat "" (x :: l) = x ++ String.concat "" l.
Proof.
  destruct l as [|y l]; simpl; [now rewrite append_empty_r | reflexivity].
Qed.

Lemma fold_lines (lines : list (Z * string)) (init : string) :
  fold_left (fun response ic => response ++ document_line (fst ic) (snd ic))
    lines init
  = init ++ String.concat "" (map render_line lines).
Proof.
  revert init. induction lines as [|ic lines IH]; intros init.
  - simpl. now rewrite append_empty_r.
  - cbn [fold_left map]. rewrite IH, concat_cons, append_assoc. reflexivity.
Qed.

Lemma keep_some_length {X : Type} (l : list (option X)) :
  (List.length (keep_some l) <= List.length l)%nat.
Proof.
  induction l as [|[x|] l IH]; simpl; lia.
Qed.

Section Synthesis.
Context `{Backend} `{SetOrder}.

Lemma doc_contexts_texts (docs : list pydict) :
  doc_contexts docs = keep_some (map text_of docs).
Proof.
  induction docs as [|doc docs IH]; [reflexivity|].
  unfold doc_contexts in *. simpl. rewrite IH. unfold text_of.
  destruct (dict_get "metadata" doc) as [[| | |metadata]|]; try reflexivity.
  destruct (dict_get "text" metadata); reflexivity.
Qed.

Lemma doc_sources_entries (docs : list pydict) :
  doc_sources docs = keep_some (map source_entry docs).
Proof.
  induction docs as [|doc docs IH]; [reflexivity|].
  unfold doc_sources in *. simpl. rewrite IH.
  unfold source_entry, file_name_of, relevance_of.
  destruct (dict_get "metadata" doc) as [[| | |metadata]|]; try reflexivity.
  destruct (dict_get "file_name" metadata); reflexivity.
Qed.

(** The distinct texts, however the set orders them, are as many as
    [nodup] finds. *)
Lemma set_list_length (l : list string) :
  List.length (set_list l) = List.length (nodup string_dec l).
Proof.
  apply Permutation_length, NoDup_Permutation.
  - apply set_list_NoDup.
  - apply NoDup_nodup.
  - intros x. rewrite set_list_In, nodup_In. reflexivity.
Qed.

Lemma NoDup_firstn {X : Type} (n : nat) (l : list X) :
  NoDup l -> NoDup (firstn n l).
Proof.
  revert l. induction n as [|n IH]; intros l Hl; [constructor|].
  destruct l as [|x l]; [constructor|].
  inversion Hl as [|x' l' Hx Hl']; subst. simpl. constructor; [|now apply IH].
  intros Hin. apply Hx. rewrite <- (firstn_skipn n l). apply in_or_app. now left.
Qed.

(** C3 (as amended).  The answer is built from the texts of the results
    that carry one: the texts are deduplicated by string equality, at
    most three of the distinct texts are used (which ones, and in which
    order, is the iteration order of a set, not the retrieval order),
    each one cut to 300 characters plus three dots when longer, and they
    are appended as numbered lines to the header; without any text the
    answer is the fixed no-information sentence.  [sources] has one
    entry, file name and score, for each result whose metadata has a
    [file_name], in retrieval order, and none for the other results. *)
Theorem response_from_docs_shape (query : string) (docs : list pydict) :
  let response := _generate_response_from_docs query docs in
  let texts := keep_some (map text_of docs) in
  (texts = [] -> answer response = no_relevant_information)
  /\ (exists excerpts,
        NoDup excerpts
        /\ incl excerpts texts
        /\ List.length excerpts
           = Nat.min 3 (List.length (nodup string_dec texts))
        /\ (texts <> [] ->
            answer response
            = response_header query
              ++ String.concat "" (map render_line (enumerate excerpts))))
  /\ (forall ctx,
        (Py.str_len ctx <= 300 -> ctx_preview ctx = ctx)
        /\ (300 < Py.str_len ctx ->
            ctx_preview ctx = Py.str_slice ctx 0 300 ++ "..."
            /\ Py.str_len (ctx_preview ctx) = 303
            /\ exists rest, ctx = Py.str_slice ctx 0 300 ++ rest))
  /\ sources response = keep_some (map source_entry docs)
  /\ (List.length (sources response) <= List.length docs)%nat.
Proof.
  simpl. rewrite <- doc_contexts_texts.
  split; [|split; [|split; [|split]]].
  - unfold generate_response. now intros ->.
  - exists (firstn 3 (set_list (doc_contexts docs))).
    split; [apply NoDup_firstn, set_list_NoDup|].
    split.
    { intros c Hc. apply (set_list_In (doc_contexts docs) c).
      rewrite <- (firstn_skipn 3 (set_list (doc_contexts docs))).
      apply in_or_app. now left. }
    split; [now rewrite length_firstn, set_list_length|].
    intros Hne. unfold generate_response.
    destruct (doc_contexts docs) as [|c cs] eqn:E; [congruence|].
    rewrite fold_lines, slice_firstn by lia. reflexivity.
  - apply ctx_preview_spec.
  - apply doc_sources_entries.
  - rewrite doc_sources_entries.
    pose proof (keep_some_length (map source_entry docs)) as Hl.
    rewrite length_map in Hl. exact Hl.
Qed.
End Synthesis.

Lemma response_from_docs_shape_witness :
  keep_some (map text_of [text_only_hit]) <> []
  /\ exists excerpts,
       List.length excerpts = 1%nat
       /\ answer (@_generate_response_from_docs nodup_order "safety stock"
                    [text_only_hit])
          = response_header "safety stock"
            ++ String.concat "" (map render_line (enumerate excerpts)).
Proof.
  assert (Hne : keep_some (map text_of [text_only_hit]) <> []) by discriminate.
  split; [exact Hne|].
  destruct (proj1 (proj2 (@response_from_docs_shape nodup_order "safety stock"
                            [text_only_hit])))
    as [excerpts [_ [_ [Hlen Hans]]]].
  exists excerpts. split; [exact Hlen | exact (Hans Hne)].
Defined.

(** C3 as stated fails: a retrieved result whose metadata has no
    [file_name] is used for the answer and is missing from [sources]. *)
Lemma sources_omit_result_without_file_name :
  answer (@_generate_response_from_docs nodup_order "safety stock" [text_only_hit])
  = response_header "safety stock"
    ++ "Document 1: safety stock covers demand spikes" ++ newline2
  /\ sources (@_generate_response_from_docs nodup_order "safety stock"
                [text_only_hit])
     = []
  /\ ~ In text_only_hit
         (sources (@_generate_response_from_docs nodup_order "safety stock"
                     [text_only_hit])).
Proof.
  split; [reflexivity|]. split; [reflexivity|]. intros Hin. exact Hin.
Qed.

(** The order of the excerpts follows the set, not the retrieval: the
    same results give the two texts in either order. *)
Example excerpt_order_depends_on_set :
  let docs := [result_dict "c1" fone [("text", "alpha")];
               result_dict "c2" fone [("text", "beta")]] in
  answer (@_generate_response_from_docs nodup_order "q" docs)
  = response_header "q" ++ "Document 1: alpha" ++ newline2
    ++ "Document 2: beta" ++ newline2
  /\ answer (@_generate_response_from_docs reversed_order "q" docs)
     = response_header "q" ++ "Document 1: beta" ++ newline2
       ++ "Document 2: alpha" ++ newline2.
Proof. split; reflexivity. Qed.

(** A source entry carries the file name and the score, not the
    identifier of the result. *)
Example source_entry_has_no_id :
  sources (@_generate_response_from_docs nodup_order "q"
             [result_dict "c1" fone [("text", "alpha"); ("file_name", "plan.txt")]])
  = [[("file_name", VStr "plan.txt"); ("relevance", VFloat fone)]].
Proof. reflexivity. Qed.

Section QueryPath.
Context `{Backend} `{SetOrder}.

(** In mock mode [process_query] hands every query to [get_answer], and
    so fails with it as soon as the search finds a record. *)
Lemma process_query_mock_key_error (mock_vectors : list StoredDoc)
    (query : string) (top_k : Z) (r : pydict) (rs : list pydict) :
  search (MockHandler mock_vectors) query 3 = Returns (r :: rs) ->
  (exists results, search (MockHandler mock_vectors) query top_k = Returns results) ->
  process_query (MockHandler mock_vectors) query top_k = Raises (KeyError "text").
Proof.
  intros H3 [results Hk].
  unfold process_query, search_documents. rewrite Hk. simpl.
  pose proof (get_answer_key_error _ _ _ _ H3) as Hg.
  destruct results; exact Hg.
Qed.
End QueryPath.

(** * Further properties of the code *)

(** ** chunk_text: sizes, count and reassembly *)

Lemma adjust_step (n a b : Z) :
  0 <= n -> a <= b -> Py.adjust n b - Py.adjust n a <= b - a.
Proof.
  intros Hn Hab. unfold Py.adjust.
  destruct (a <? 0) eqn:Ea; destruct (b <? 0) eqn:Eb;
    rewrite ?Z.ltb_lt, ?Z.ltb_ge in *; lia.
Qed.

(** Wherever the cursor stands before the end of the text, the window ends
    beyond the cursor, inside the text, and at most [chunk_size] characters
    after the (normalised) cursor. *)
Lemma window_end_general (text : string) (chunk_size start : Z) :
  start < Py.str_len text -> 0 < chunk_size ->
  start < window_end text chunk_size start
  /\ 0 <= window_end text chunk_size start <= Py.str_len text
  /\ window_end text chunk_size start - Py.adjust (Py.str_len text) start
     <= chunk_size.
Proof.
  intros Hs Hc. unfold window_end.
  pose proof (str_len_nonneg text) as Hn.
  set (n := Py.str_len text) in *.
  set (e0 := Z.min (start + chunk_size) n).
  assert (He0 : start < e0 <= n /\ e0 <= start + chunk_size) by (unfold e0; lia).
  pose proof (adjust_range n start Hn) as Ha.
  pose proof (adjust_range n e0 Hn) as Hb.
  pose proof (adjust_step n start e0 Hn ltac:(lia)) as Hstep.
  assert (Hfind : forall c, Py.str_rfind text c start e0 = -1
                   \/ Py.adjust n start <= Py.str_rfind text c start e0
                      < Py.adjust n e0)
    by (intros c; apply rfind_range).
  assert (Hhard : -1 <= start -> 0 <= e0 /\ e0 - Py.adjust n start <= chunk_size).
  { intros H1. split; [lia|].
    unfold Py.adjust. destruct (start <? 0) eqn:E;
      rewrite ?Z.ltb_lt, ?Z.ltb_ge in E; lia. }
  destruct (e0 <? n) eqn:E.
  - destruct (Py.str_rfind text newline start e0 >? start) eqn:En.
    + apply Z.gtb_lt in En. destruct (Hfind newline); lia.
    + rewrite Z.gtb_ltb in En. apply Z.ltb_ge in En.
      destruct (Py.str_rfind text space start e0 >? start) eqn:Esp.
      * apply Z.gtb_lt in Esp. destruct (Hfind space); lia.
      * rewrite Z.gtb_ltb in Esp. apply Z.ltb_ge in Esp.
        assert (-1 <= start) by (destruct (Hfind newline); lia).
        lia.
  - apply Z.ltb_ge in E.
    assert (e0 = n) by lia.
    unfold Py.adjust in *. destruct (start <? 0) eqn:Es;
      rewrite ?Z.ltb_lt, ?Z.ltb_ge in Es; lia.
Qed.

Lemma slice_length {A : Type} (l : list A) (i j : Z) :
  Py.len (Py.slice l i j)
  = Z.max 0 (Py.adjust (Py.len l) j - Py.adjust (Py.len l) i).
Proof.
  unfold Py.slice.
  assert (Hn : 0 <= Py.len l) by (unfold Py.len; lia).
  pose proof (adjust_range (Py.len l) i Hn) as Hi.
  pose proof (adjust_range (Py.len l) j Hn) as Hj.
  unfold Py.len in *. rewrite length_firstn, length_skipn. lia.
Qed.

Lemma str_slice_length (s : string) (i j : Z) :
  Py.str_len (Py.str_slice s i j)
  = Z.max 0 (Py.adjust (Py.str_len s) j - Py.adjust (Py.str_len s) i).
Proof.
  unfold Py.str_len, Py.str_slice.
  rewrite list_ascii_of_string_of_list_ascii. apply slice_length.
Qed.

Lemma run_spans (text : string) (chunk_size overlap start : Z)
    (spans : list (Z * Z)) :
  run text chunk_size overlap start spans ->
  Forall (fun sp => fst sp < Py.str_len text
                    /\ snd sp = window_end text chunk_size (fst sp)) spans.
Proof.
  induction 1 as [|start rest Hlt Hw Hr IH]; constructor; [|exact IH].
  split; [exact Hlt | reflexivity].
Qed.

(** X2.  For a positive [chunk_size] no chunk is longer than [chunk_size]
    characters, whatever the overlap and wherever the cursor went. *)
Theorem chunk_text_chunk_length (self : DocumentProcessor) (text : string)
    (chunk_size overlap : Z) :
  0 < chunk_size ->
  Forall (fun chunk => Py.str_len chunk <= chunk_size)
    (chunk_text self text chunk_size overlap).
Proof.
  intros Hc. rewrite chunk_text_spans. apply Forall_map.
  pose proof (run_spans _ _ _ _ _ (chunk_spans_run self text chunk_size overlap))
    as Hsp.
  eapply Forall_impl; [|exact Hsp].
  intros [s e] [Hs He]. simpl in *. subst e.
  unfold span_slice. simpl. rewrite str_slice_length.
  destruct (window_end_general text chunk_size s Hs Hc) as [_ [Hr Hd]].
  rewrite (adjust_id _ _ Hr). lia.
Qed.

Lemma chunk_text_chunk_length_witness :
  0 < 8
  /\ Forall (fun chunk => Py.str_len chunk <= 8)
       (chunk_text (with_max_chunks 6) "hello world foo bar" 8 2).
Proof.
  split; [lia|]. apply chunk_text_chunk_length. lia.
Defined.

Lemma str_len_pos (text : string) : String.eqb text "" = false -> 0 < Py.str_len text.
Proof.
  destruct text; [discriminate|]. intros _.
  unfold Py.str_len, Py.len. simpl. lia.
Qed.

Lemma chunk_loop_fills_cap (self : DocumentProcessor) (text : string)
    (chunk_size overlap : Z) :
  0 < chunk_size -> 0 < overlap ->
  forall fuel start count chunks,
    start < Py.str_len text ->
    (budget self count <= fuel)%nat ->
    exists out,
      chunk_loop fuel self text chunk_size overlap start count chunks = Some out
      /\ List.length out = (List.length chunks + budget self count)%nat.
Proof.
  intros Hc Hov. unfold budget.
  induction fuel as [|fuel IH]; intros start count chunks Hs Hf; simpl.
  - apply Z.ltb_lt in Hs. rewrite Hs. simpl.
    destruct (count <? max_chunks self) eqn:E.
    + apply Z.ltb_lt in E. lia.
    + apply Z.ltb_ge in E. eexists; split; [reflexivity | lia].
  - pose proof Hs as Hs'. apply Z.ltb_lt in Hs'. rewrite Hs'. simpl.
    destruct (count <? max_chunks self) eqn:E.
    + apply Z.ltb_lt in E.
      destruct (window_end_general text chunk_size start Hs Hc) as [Hgt [Hr _]].
      destruct (window_end text chunk_size start <=? start) eqn:W;
        [apply Z.leb_le in W; lia|].
      destruct (IH (window_end text chunk_size start - overlap) (count + 1)
                  (chunks ++ [Py.str_slice text start
                                (window_end text chunk_size start)])%list)
        as [out [Ho Hl]]; [lia | lia |].
      exists out. split; [exact Ho|].
      rewrite Hl, length_app. simpl. lia.
    + apply Z.ltb_ge in E. eexists; split; [reflexivity | lia].
Qed.

(** X3.  With a positive chunk size and a positive effective overlap the
    loop never stops at the end of the text: every non-empty text yields
    exactly [max_chunks] chunks (none when the cap is not positive). *)
Theorem chunk_text_fills_cap (self : DocumentProcessor) (text : string)
    (chunk_size overlap : Z) :
  text <> "" -> 0 < chunk_size -> 0 < clamp_overlap chunk_size overlap ->
  List.length (chunk_text self text chunk_size overlap)
  = Z.to_nat (max_chunks self).
Proof.
  intros Hne Hc Hov. unfold chunk_text, chunk_text_fuel.
  destruct (String.eqb text "") eqn:E; [apply String.eqb_eq in E; contradiction|].
  destruct (chunk_loop_fills_cap self text chunk_size
              (clamp_overlap chunk_size overlap) Hc Hov
              (Z.to_nat (max_chunks self)) 0 0 [] (str_len_pos text E))
    as [out [Ho Hl]].
  { unfold budget. rewrite Z.sub_0_r. lia. }
  rewrite Ho, Hl. unfold budget. rewrite Z.sub_0_r. reflexivity.
Qed.

Lemma chunk_text_fills_cap_witness :
  "reorder point" <> "" /\ 0 < 1000 /\ 0 < clamp_overlap 1000 200
  /\ List.length (chunk_text default_processor "reorder point" 1000 200)
     = 5000%nat.
Proof.
  assert (H1 : "reorder point" <> "") by discriminate.
  assert (H2 : 0 < 1000) by lia.
  assert (H3 : 0 < clamp_overlap 1000 200) by reflexivity.
  split; [exact H1|]. split; [exact H2|]. split; [exact H3|].
  exact (chunk_text_fills_cap default_processor "reorder point" 1000 200 H1 H2 H3).
Defined.

Lemma concat_app (l1 l2 : list string) :
  String.concat "" (l1 ++ l2) = String.concat "" l1 ++ String.concat "" l2.
Proof.
  induction l1 as [|x l1 IH]; [reflexivity|].
  change ((x :: l1) ++ l2)%list with (x :: (l1 ++ l2))%list.
  rewrite !concat_cons, IH, append_assoc. reflexivity.
Qed.

Lemma firstn_add {A : Type} (n m : nat) (l : list A) :
  firstn (n + m) l = (firstn n l ++ firstn m (skipn n l))%list.
Proof.
  revert l. induction n as [|n IH]; intros l; [reflexivity|].
  destruct l as [|x l]; simpl; [now rewrite firstn_nil | now rewrite IH].
Qed.

(** [s[a:b] + s[b:c] = s[a:c]] for [0 <= a <= b <= c <= len(s)] *)
Lemma str_slice_join (s : string) (a b c : Z) :
  0 <= a <= b -> b <= c <= Py.str_len s ->
  Py.str_slice s a b ++ Py.str_slice s b c = Py.str_slice s a c.
Proof.
  intros Hab Hbc. unfold Py.str_slice, Py.slice, Py.str_len in *.
  rewrite !adjust_id by lia.
  rewrite <- string_of_list_app. f_equal.
  replace (Z.to_nat (c - a)) with (Z.to_nat (b - a) + Z.to_nat (c - b))%nat by lia.
  rewrite firstn_add, skipn_skipn.
  replace (Z.to_nat (b - a) + Z.to_nat a)%nat with (Z.to_nat b) by lia.
  reflexivity.
Qed.

Lemma str_slice_empty (s : string) (a : Z) : Py.str_slice s a a = "".
Proof.
  unfold Py.str_slice, Py.slice. rewrite Z.sub_diag. reflexivity.
Qed.

Lemma str_slice_whole (s : string) : Py.str_slice s 0 (Py.str_len s) = s.
Proof.
  unfold Py.str_slice, Py.str_len. rewrite slice_firstn by (unfold Py.len; lia).
  unfold Py.len. rewrite Nat2Z.id, firstn_all.
  apply string_of_list_ascii_of_string.
Qed.

(** Without overlap the chunks are consecutive slices: together they
    spell the text from the first cursor up to some position [e], and the
    loop stopped either at the end of the text or at the cap. *)
Lemma chunk_loop_zero_overlap (self : DocumentProcessor) (text : string)
    (chunk_size : Z) :
  0 < chunk_size ->
  forall fuel start count chunks out,
    0 <= start <= Py.str_len text ->
    chunk_loop fuel self text chunk_size 0 start count chunks = Some out ->
    exists e,
      start <= e <= Py.str_len text
      /\ String.concat "" out
         = String.concat "" chunks ++ Py.str_slice text start e
      /\ (e = Py.str_len text
          \/ max_chunks self - count
             <= Z.of_nat (List.length out) - Z.of_nat (List.length chunks)).
Proof.
  intros Hc.
  assert (Hstop : forall start count chunks out,
             0 <= start <= Py.str_len text ->
             ((start <? Py.str_len text) && (count <? max_chunks self))%bool = false ->
             Some chunks = Some out ->
             exists e,
               start <= e <= Py.str_len text
               /\ String.concat "" out
                  = String.concat "" chunks ++ Py.str_slice text start e
               /\ (e = Py.str_len text
                   \/ max_chunks self - count
                      <= Z.of_nat (List.length out) - Z.of_nat (List.length chunks))).
  { intros start count chunks out Hs E Ho. injection Ho as <-.
    exists start. split; [lia|].
    split; [now rewrite str_slice_empty, append_empty_r|].
    apply andb_false_iff in E as [E|E]; apply Z.ltb_ge in E; [left | right]; lia. }
  induction fuel as [|fuel IH]; intros start count chunks out Hs Ho; simpl in Ho.
  - destruct ((start <? Py.str_len text) && (count <? max_chunks self))%bool eqn:E;
      [discriminate|].
    now apply Hstop.
  - destruct ((start <? Py.str_len text) && (count <? max_chunks self))%bool eqn:E;
      [|now apply Hstop].
    apply andb_prop in E as [E1 E2]. apply Z.ltb_lt in E1. apply Z.ltb_lt in E2.
    pose proof (window_end_bounds text chunk_size start ltac:(lia) Hc) as Hw.
    destruct (window_end text chunk_size start <=? start) eqn:W;
      [apply Z.leb_le in W; lia|].
    rewrite Z.sub_0_r in Ho.
    apply IH in Ho as [e [He [Hcat Hend]]]; [|lia].
    exists e. split; [lia|]. split.
    + rewrite Hcat, concat_app, concat_cons, append_empty_r, append_assoc.
      rewrite str_slice_join by lia. reflexivity.
    + rewrite length_app in Hend. simpl in Hend.
      destruct Hend as [Hend|Hend]; [now left | right; lia].
Qed.

(** X1.  With [overlap = 0] the chunks, joined in order, are a prefix of
    the text, and they are the whole text whenever fewer than [max_chunks]
    chunks were returned. *)
Theorem chunk_text_zero_overlap_reassembles (self : DocumentProcessor)
    (text : string) (chunk_size : Z) :
  0 < chunk_size ->
  (exists rest,
     text = String.concat "" (chunk_text self text chunk_size 0) ++ rest)
  /\ (Z.of_nat (List.length (chunk_text self text chunk_size 0)) < max_chunks self ->
      String.concat "" (chunk_text self text chunk_size 0) = text).
Proof.
  intros Hc. unfold chunk_text, chunk_text_fuel.
  destruct (String.eqb text "") eqn:E.
  { apply String.eqb_eq in E. subst text. split; [now exists "" | reflexivity]. }
  assert (Hcl : clamp_overlap chunk_size 0 = 0).
  { unfold clamp_overlap. destruct (0 >=? chunk_size) eqn:G; [|reflexivity].
    apply Z.geb_le in G. lia. }
  rewrite Hcl.
  destruct (chunk_loop (Z.to_nat (max_chunks self)) self text chunk_size 0 0 0 [])
    as [out|] eqn:Ho.
  - pose proof (str_len_nonneg text) as Hn.
    assert (H0 : 0 <= 0 <= Py.str_len text) by lia.
    destruct (chunk_loop_zero_overlap self text chunk_size Hc _ _ _ _ _ H0 Ho)
      as [e [He [Hcat Hend]]].
    simpl in Hcat. split.
    + exists (Py.str_slice text e (Py.str_len text)).
      rewrite Hcat, str_slice_join by lia. symmetry. apply str_slice_whole.
    + intros Hlt. simpl in Hend. destruct Hend as [->|Hend]; [|lia].
      rewrite Hcat. apply str_slice_whole.
  - destruct (chunk_loop_enough self text chunk_size 0
                (Z.to_nat (max_chunks self)) 0 0 []) as [out [Ho' _]].
    { unfold budget. rewrite Z.sub_0_r. lia. }
    congruence.
Qed.

Lemma chunk_text_zero_overlap_reassembles_witness :
  0 < 8
  /\ Z.of_nat (List.length (chunk_text (with_max_chunks 10) "hello world foo bar" 8 0))
     < max_chunks (with_max_chunks 10)
  /\ String.concat "" (chunk_text (with_max_chunks 10) "hello world foo bar" 8 0)
     = "hello world foo bar".
Proof.
  assert (H1 : 0 < 8) by lia.
  assert (H2 : Z.of_nat (List.length
                 (chunk_text (with_max_chunks 10) "hello world foo bar" 8 0))
               < max_chunks (with_max_chunks 10)) by (vm_compute; reflexivity).
  split; [exact H1|]. split; [exact H2|].
  exact (proj2 (chunk_text_zero_overlap_reassembles (with_max_chunks 10)
                  "hello world foo bar" 8 H1) H2).
Defined.

(** ** extract_text and process_document *)

Lemma str_slice_beyond (s : string) (k : Z) :
  Py.str_len s <= k -> Py.str_slice s 0 k = s.
Proof.
  intros Hk. pose proof (str_len_nonneg s) as Hn.
  unfold Py.str_slice, Py.str_len, Py.len in *.
  rewrite slice_firstn by lia. rewrite firstn_all2 by lia.
  apply string_of_list_ascii_of_string.
Qed.

(** [content[:cap]] for a non-negative cap *)
Lemma str_slice_cap (content : string) (cap : Z) :
  0 <= cap ->
  Py.str_len (Py.str_slice content 0 cap) = Z.min (Py.str_len content) cap
  /\ exists rest, content = Py.str_slice content 0 cap ++ rest.
Proof.
  intros Hc. destruct (Z.le_gt_cases cap (Py.str_len content)) as [Hle|Hgt].
  - destruct (str_slice_prefix content cap) as [Hl Hr]; [lia|].
    split; [lia | exact Hr].
  - rewrite str_slice_beyond by lia. split; [lia|].
    exists "". now rewrite append_empty_r.
Qed.

(** X4.  What [extract_text] returns for a readable [.txt] or [.csv] file
    is the beginning of what was read, cut to [max_text_chars] characters
    (when that cap is not negative): content beyond the cap is discarded,
    shorter content is returned whole. *)
Theorem extract_text_caps_content (self : DocumentProcessor) (fs : FileSystem)
    (file_path content : string) :
  0 <= max_text_chars self ->
  (lower (snd (splitext file_path)) = ".txt"
   /\ read_text fs file_path = Returns content)
  \/ (lower (snd (splitext file_path)) = ".csv"
      /\ read_csv_head fs file_path = Returns content) ->
  exists text,
    extract_text self fs file_path = Returns text
    /\ Py.str_len text = Z.min (Py.str_len content) (max_text_chars self)
    /\ exists rest, content = text ++ rest.
Proof.
  intros Hcap Hread.
  exists (Py.str_slice content 0 (max_text_chars self)).
  split; [|apply str_slice_cap, Hcap].
  unfold extract_text.
  destruct Hread as [[-> ->] | [-> ->]]; reflexivity.
Qed.

Lemma extract_text_caps_content_witness :
  0 <= max_text_chars short_cap
  /\ (lower (snd (splitext "notes.txt")) = ".txt"
      /\ read_text notes_file "notes.txt" = Returns "lead time is ten days"
      \/ lower (snd (splitext "notes.txt")) = ".csv"
         /\ read_csv_head notes_file "notes.txt" = Returns "lead time is ten days")
  /\ exists text,
       extract_text short_cap notes_file "notes.txt" = Returns text
       /\ Py.str_len text
          = Z.min (Py.str_len "lead time is ten days") (max_text_chars short_cap)
       /\ exists rest, "lead time is ten days" = text ++ rest.
Proof.
  assert (H1 : 0 <= max_text_chars short_cap) by (simpl; lia).
  assert (H2 : lower (snd (splitext "notes.txt")) = ".txt"
               /\ read_text notes_file "notes.txt" = Returns "lead time is ten days"
               \/ lower (snd (splitext "notes.txt")) = ".csv"
                  /\ read_csv_head notes_file "notes.txt"
                     = Returns "lead time is ten days")
    by (left; split; reflexivity).
  split; [exact H1|]. split; [exact H2|].
  exact (extract_text_caps_content short_cap notes_file "notes.txt"
           "lead time is ten days" H1 H2).
Defined.

Lemma dict_get_set_same {V : Type} (k : string) (v : V) (d : list (string * V)) :
  dict_get k (dict_set k v d) = Some v.
Proof.
  induction d as [|[k' v'] d IH]; simpl.
  - now rewrite String.eqb_refl.
  - destruct (String.eqb k k') eqn:E; simpl.
    + now rewrite String.eqb_refl.
    + rewrite E. exact IH.
Qed.

Lemma dict_get_set_other {V : Type} (k k' : string) (v : V) (d : list (string * V)) :
  String.eqb k' k = false ->
  dict_get k' (dict_set k v d) = dict_get k' d.
Proof.
  intros Hne. induction d as [|[k0 v0] d IH]; simpl.
  - now rewrite Hne.
  - destruct (String.eqb k k0) eqn:E; simpl.
    + apply String.eqb_eq in E. subst k0. now rewrite Hne.
    + destruct (String.eqb k' k0); [reflexivity | exact IH].
Qed.

Lemma enumerate_map {A B : Type} (g : Z * A -> B) (l : list A) :
  forall i,
    enumerate_from i (map g (enumerate_from i l))
    = map (fun ia => (fst ia, g ia)) (enumerate_from i l).
Proof.
  induction l as [|a l IH]; intros i; [reflexivity|].
  simpl. now rewrite IH.
Qed.

Lemma enumerate_length {A : Type} (l : list A) :
  forall i, List.length (enumerate_from i l) = List.length l.
Proof.
  induction l as [|a l IH]; intros i; [reflexivity|]. simpl. now rewrite IH.
Qed.

Lemma enumerate_snd {A : Type} (l : list A) :
  forall i, map snd (enumerate_from i l) = l.
Proof.
  induction l as [|a l IH]; intros i; [reflexivity|]. simpl. now rewrite IH.
Qed.

Lemma combine_fst {A B : Type} (l1 : list A) (l2 : list B) :
  map fst (combine l1 l2) = firstn (List.length (combine l1 l2)) l1.
Proof.
  revert l2. induction l1 as [|a l1 IH]; intros l2; [reflexivity|].
  destruct l2 as [|b l2]; [reflexivity|]. simpl. now rewrite IH.
Qed.

Section ProcessDocument.
Context `{Backend} `{ChunkEncoder}.

Lemma mapM_raises {A B : Type} (f : A -> outcome B) (l : list A) (e : exn) :
  mapM f l = Raises e -> Exists (fun a => f a = Raises e) l.
Proof.
  induction l as [|a l IH]; simpl; [discriminate|].
  destruct (f a) as [b|e'] eqn:Ea; simpl.
  - destruct (mapM f l) as [bs|e''] eqn:El; simpl; [discriminate|].
    intros Hr. injection Hr as ->. apply Exists_cons_tl. now apply IH.
  - intros Hr. injection Hr as ->. now apply Exists_cons_hd.
Qed.

(** [embed_chunks] raises only when the batch call has raised and the
    encoding of one chunk raises in the fallback. *)
Lemma embed_chunks_raises (chunks : list string) (e : exn) :
  embed_chunks chunks = Raises e ->
  raises (encode_batch chunks)
  /\ Exists (fun chunk => encode_chunk chunk = Raises e) chunks.
Proof.
  unfold embed_chunks. destruct chunks as [|c chunks]; [discriminate|].
  destruct (encode_batch (c :: chunks)) as [embeddings|e'] eqn:Eb; [discriminate|].
  intros Hr. split; [now exists e' | now apply mapM_raises].
Qed.

(** X5.  [extract_text] never makes [process_document] fail.  When
    [process_document] returns, it yields at most [max_chunks] chunks;
    chunk [i] carries the identifier drawn for [i], the text of the [i]-th
    chunk of the extracted text, and the caller's metadata with
    [file_name], [file_path], [file_type] and [chunk_index] set
    (overwriting what the caller supplied under those keys) and every
    other key untouched.  It raises only for a supported file with
    non-empty text, when the batch embedding has raised and the embedding
    of one chunk raises in the fallback; the exception is that one. *)
Theorem process_document_chunks (self : DocumentProcessor) (fs : FileSystem)
    (uuid4 : Z -> string) (file_path : string) (metadata : option metadata_t) :
  exists text,
    extract_text self fs file_path = Returns text
    /\ match process_document self fs uuid4 file_path metadata with
       | Returns docs =>
           (List.length docs <= Z.to_nat (max_chunks self))%nat
           /\ map dc_text docs
              = firstn (List.length docs) (chunk_text self text 1000 200)
           /\ Forall
                (fun ic =>
                   dc_id (snd ic) = uuid4 (fst ic)
                   /\ dict_get "chunk_index" (dc_metadata (snd ic))
                      = Some (show_Z (fst ic))
                   /\ dict_get "file_name" (dc_metadata (snd ic))
                      = Some (basename file_path)
                   /\ dict_get "file_path" (dc_metadata (snd ic)) = Some file_path
                   /\ dict_get "file_type" (dc_metadata (snd ic))
                      = Some (lower (snd (splitext file_path)))
                   /\ forall k,
                        In k reserved_keys
                        \/ dict_get k (dc_metadata (snd ic))
                           = dict_get k
                               (match metadata with Some m => m | None => [] end))
                (enumerate docs)
       | Raises e =>
           is_supported_file self file_path = true
           /\ text <> ""
           /\ raises (encode_batch (chunk_text self text 1000 200))
           /\ Exists (fun chunk => encode_chunk chunk = Raises e)
                (chunk_text self text 1000 200)
       end.
Proof.
  destruct (extract_text_returns self fs file_path) as [text Hx].
  exists text. split; [exact Hx|].
  unfold process_document. rewrite Hx. cbn [bind].
  destruct (is_supported_file self file_path) eqn:Hsup; cbn [negb];
    [|repeat split; simpl; try lia; constructor].
  destruct (String.eqb text "") eqn:Hempty;
    [repeat split; simpl; try lia; constructor|].
  set (chunks := chunk_text self text 1000 200).
  destruct (embed_chunks chunks) as [embeddings|e] eqn:Hemb; cbn [bind].
  - set (pairs := combine chunks embeddings).
    set (md := match metadata with Some m => m | None => [] end).
    assert (Hlen : (List.length pairs <= Z.to_nat (max_chunks self))%nat).
    { unfold pairs. rewrite length_combine.
      pose proof (chunk_text_length self text 1000 200) as Hc.
      fold chunks in Hc. lia. }
    unfold enumerate.
    split; [now rewrite length_map, enumerate_length|].
    split.
    + rewrite map_map, length_map, enumerate_length. simpl.
      rewrite <- (map_map snd fst), enumerate_snd.
      apply combine_fst.
    + rewrite enumerate_map. apply Forall_map.
      apply Forall_forall. intros ic _. simpl.
      unfold dict_update. simpl.
      split; [reflexivity|].
      split; [apply dict_get_set_same|].
      split.
      { rewrite !dict_get_set_other by reflexivity. apply dict_get_set_same. }
      split.
      { rewrite !dict_get_set_other by reflexivity. apply dict_get_set_same. }
      split.
      { rewrite dict_get_set_other by reflexivity. apply dict_get_set_same. }
      intros k. unfold reserved_keys.
      destruct (String.eqb k "chunk_index") eqn:E1;
        [apply String.eqb_eq in E1; left; subst; simpl; tauto|].
      destruct (String.eqb k "file_name") eqn:E2;
        [apply String.eqb_eq in E2; left; subst; simpl; tauto|].
      destruct (String.eqb k "file_path") eqn:E3;
        [apply String.eqb_eq in E3; left; subst; simpl; tauto|].
      destruct (String.eqb k "file_type") eqn:E4;
        [apply String.eqb_eq in E4; left; subst; simpl; tauto|].
      right. now rewrite !dict_get_set_other by assumption.
  - split; [reflexivity|]. split.
    + intros ->. discriminate.
    + now apply embed_chunks_raises.
Qed.
End ProcessDocument.

(** The fallback of [embed_chunks] at work: the batch call fails, the
    chunks are encoded one by one, and [process_document] returns one
    entry per chunk. *)
Example process_document_fallback_returns :
  exists docs,
    @process_document failing_batch unit_encoder short_cap notes_file
      (fun i => show_Z i) "notes.txt" None
    = Returns docs
    /\ map dc_text docs = ["lead time"; "lead time"]
    /\ map dc_id docs = ["0"; "1"].
Proof. eexists. split; [reflexivity|]. split; reflexivity. Qed.

(** When the encoding of a chunk fails in the fallback, the exception
    leaves [process_document]. *)
Example process_document_fallback_raises :
  @process_document failing_batch failing_encoder short_cap notes_file
    (fun i => show_Z i) "notes.txt" None
  = Raises TypeError.
Proof. reflexivity. Qed.

(** ** The local store: deletion, search errors and result sets *)

Lemma filter_filter_comm {A : Type} (p q : A -> bool) (l : list A) :
  (forall x, q x = true -> p x = true) ->
  filter q (filter p l) = filter q l.
Proof.
  intros Hpq. induction l as [|x l IH]; [reflexivity|]. simpl.
  destruct (p x) eqn:Ep; simpl.
  - destruct (q x); now rewrite IH.
  - destruct (q x) eqn:Eq; [apply Hpq in Eq; congruence | exact IH].
Qed.

Lemma filter_none {A : Type} (p : A -> bool) (l : list A) :
  List.length (filter p l) = 0%nat -> filter (fun x => negb (p x)) l = l.
Proof.
  induction l as [|x l IH]; [reflexivity|]. simpl.
  destruct (p x); simpl; [discriminate|]. intros Hl. now rewrite IH.
Qed.

Section Deletion.
Context `{IndexAdmin}.

(** X6.  In mock mode [delete_document] answers [True], leaves no record
    with the given identifier, keeps the records of every other identifier
    in their order, and changes nothing when the identifier is absent. *)
Theorem delete_document_removes_id (mock_vectors : list StoredDoc) (id : string) :
  fst (delete_document (MockHandler mock_vectors) id) = true
  /\ count_id id (stored_vectors (snd (delete_document (MockHandler mock_vectors) id)))
     = 0%nat
  /\ (forall other,
        other = id
        \/ filter (has_id other)
             (stored_vectors (snd (delete_document (MockHandler mock_vectors) id)))
           = filter (has_id other) mock_vectors)
  /\ (count_id id mock_vectors <> 0%nat
      \/ snd (delete_document (MockHandler mock_vectors) id)
         = MockHandler mock_vectors).
Proof.
  simpl. split; [reflexivity|]. split; [|split].
  - unfold count_id. induction mock_vectors as [|doc mv IH]; [reflexivity|].
    simpl. destruct (String.eqb (doc_id doc) id) eqn:E; simpl; [exact IH|].
    rewrite E. exact IH.
  - intros other. destruct (String.eqb other id) eqn:E.
    + left. now apply String.eqb_eq.
    + right. apply filter_filter_comm. intros doc Hd. unfold has_id in Hd.
      apply String.eqb_eq in Hd. rewrite Hd, E. reflexivity.
  - unfold count_id.
    destruct (List.length (filter (fun doc => String.eqb (doc_id doc) id) mock_vectors))
      eqn:E; [right | left; discriminate].
    f_equal. now apply (filter_none (fun doc => String.eqb (doc_id doc) id)).
Qed.

(** X7.  Adding a document under an identifier the store does not hold and
    deleting that identifier again gives back the store as it was. *)
Theorem add_then_delete_restores (mock_vectors : list StoredDoc)
    (id text : string) (metadata : option metadata_t) :
  count_id id mock_vectors = 0%nat ->
  snd (delete_document
         (snd (add_document (MockHandler mock_vectors) id text metadata)) id)
  = MockHandler mock_vectors.
Proof.
  intros Habs. simpl. f_equal. rewrite filter_app. simpl.
  rewrite String.eqb_refl. simpl. rewrite app_nil_r.
  now apply (filter_none (fun doc => String.eqb (doc_id doc) id)).
Qed.
End Deletion.

Lemma add_then_delete_restores_witness :
  count_id "doc-9" [bare_doc "doc-1" [fone]] = 0%nat
  /\ snd (delete_document
            (snd (add_document (MockHandler [bare_doc "doc-1" [fone]])
                    "doc-9" "safety stock" None))
            "doc-9")
     = MockHandler [bare_doc "doc-1" [fone]].
Proof.
  split; [reflexivity|]. apply add_then_delete_restores. reflexivity.
Defined.

Lemma similarities_by_shape (query_vector : list float) (store : list StoredDoc) :
  mapM (fun doc =>
          similarity <- _cosine_similarity query_vector (doc_vector doc) ;;
          Returns (doc, similarity)) store
  = (if forallb (shape_ok query_vector) store
     then Returns (map (scored query_vector) store)
     else Raises ValueError).
Proof.
  induction store as [|doc store IH]; [reflexivity|].
  simpl. unfold _cosine_similarity at 1, np_dot, shape_ok at 1.
  destruct (Nat.eqb (List.length query_vector) (List.length (doc_vector doc)));
    simpl; [|reflexivity].
  rewrite IH. destruct (forallb (shape_ok query_vector) store); reflexivity.
Qed.

Lemma shape_ok_same_shape (query_vector : list float) (store : list StoredDoc) :
  forallb (shape_ok query_vector) store = true
  <-> Forall (same_shape query_vector) store.
Proof.
  rewrite forallb_forall, Forall_forall. unfold shape_ok, same_shape.
  split; intros Hs doc Hin; specialize (Hs doc Hin).
  - apply Nat.eqb_eq in Hs. now symmetry.
  - apply Nat.eqb_eq. now symmetry.
Qed.

(** X8.  [_mock_search] raises exactly when some stored vector has
    another length than the query vector, and what it raises then is the
    [ValueError] of [np.dot]; otherwise it returns. *)
Theorem mock_search_raises_on_shape (store : list StoredDoc)
    (query_vector : list float) (top_k : Z) :
  match _mock_search store query_vector top_k with
  | Returns _ => Forall (same_shape query_vector) store
  | Raises e =>
      e = ValueError
      /\ Exists (fun doc => List.length (doc_vector doc) <> List.length query_vector)
           store
  end.
Proof.
  unfold _mock_search. rewrite similarities_by_shape.
  destruct (forallb (shape_ok query_vector) store) eqn:E; simpl.
  - now apply shape_ok_same_shape.
  - split; [reflexivity|].
    apply Exists_exists.
    assert (Hex : existsb (fun doc => negb (shape_ok query_vector doc)) store = true).
    { clear -E. induction store as [|doc store IH]; [discriminate|].
      simpl in *. destruct (shape_ok query_vector doc); simpl; [now apply IH | reflexivity]. }
    apply existsb_exists in Hex as [doc [Hin Hd]].
    exists doc. split; [exact Hin|].
    unfold shape_ok in Hd. apply negb_true_iff, Nat.eqb_neq in Hd. congruence.
Qed.

(** X9.  When the shapes agree, the number of results is [min(top_k, n)]
    for [top_k >= 0] and [max(0, n + top_k)] for a negative [top_k], [n]
    being the number of stored records. *)
Theorem mock_search_result_count (store : list StoredDoc)
    (query_vector : list float) (top_k : Z) :
  Forall (same_shape query_vector) store ->
  exists results,
    _mock_search store query_vector top_k = Returns results
    /\ Z.of_nat (List.length results)
       = (if top_k <? 0 then Z.max 0 (Z.of_nat (List.length store) + top_k)
          else Z.min top_k (Z.of_nat (List.length store))).
Proof.
  intros Hs. eexists. split; [now apply mock_search_hits|].
  rewrite length_map.
  pose proof (slice_length (sort_desc (map (scored query_vector) store)) 0 top_k)
    as Hl.
  unfold Py.len in Hl.
  rewrite (Permutation_length (sort_desc_perm _)), length_map in Hl.
  rewrite Hl. unfold Py.adjust. simpl.
  destruct (top_k <? 0) eqn:E; rewrite ?Z.ltb_lt, ?Z.ltb_ge in E; lia.
Qed.

Lemma mock_search_result_count_witness :
  Forall (same_shape [fone]) three_docs
  /\ exists results,
       _mock_search three_docs [fone] (-1) = Returns results
       /\ Z.of_nat (List.length results)
          = (if -1 <? 0 then Z.max 0 (Z.of_nat (List.length three_docs) + -1)
             else Z.min (-1) (Z.of_nat (List.length three_docs))).
Proof.
  assert (H1 : Forall (same_shape [fone]) three_docs) by (repeat constructor).
  split; [exact H1|].
  exact (mock_search_result_count three_docs [fone] (-1) H1).
Defined.

Lemma sorted_firstn_skipn {A : Type} (R : A -> A -> Prop) (l : list A) :
  StronglySorted R l ->
  forall n a b, In a (firstn n l) -> In b (skipn n l) -> R a b.
Proof.
  induction 1 as [|x l Hs IH Hx]; intros n a b Ha Hb.
  - rewrite firstn_nil in Ha. destruct Ha.
  - destruct n as [|n]; [destruct Ha|]. simpl in Ha, Hb.
    destruct Ha as [<-|Ha].
    + rewrite Forall_forall in Hx. apply Hx.
      rewrite <- (firstn_skipn n l). apply in_or_app. now right.
    + now apply (IH n).
Qed.

(** X10.  With [top_k >= 0], agreeing shapes and numeric scores, the
    results are the best ones: the stored records split into the returned
    hits and the omitted ones, and no omitted record scores higher than a
    returned one. *)
Theorem mock_search_returns_best (store : list StoredDoc)
    (query_vector : list float) (top_k : Z) :
  0 <= top_k ->
  Forall (same_shape query_vector) store ->
  Forall (fun doc => is_nan (cosine_value query_vector (doc_vector doc)) = false)
    store ->
  exists hits omitted,
    _mock_search store query_vector top_k = Returns (map hit_dict hits)
    /\ Permutation (hits ++ omitted) (map (scored query_vector) store)
    /\ Forall (fun h => Forall (fun o => SFleb (snd o) (snd h) = true) omitted) hits.
Proof.
  intros Hk Hshape Hnum.
  set (sorted := sort_desc (map (scored query_vector) store)).
  exists (firstn (Z.to_nat top_k) sorted), (skipn (Z.to_nat top_k) sorted).
  split; [|split].
  - rewrite (mock_search_hits _ _ _ Hshape), slice_firstn by exact Hk. reflexivity.
  - rewrite firstn_skipn. apply sort_desc_perm.
  - assert (Hs : StronglySorted score_ge sorted).
    { apply sort_desc_sorted, Forall_map. exact Hnum. }
    apply Forall_forall. intros h Hh. apply Forall_forall. intros o Ho.
    exact (sorted_firstn_skipn score_ge sorted Hs _ h o Hh Ho).
Qed.

Lemma mock_search_returns_best_witness :
  0 <= 2
  /\ Forall (same_shape [fone]) three_docs
  /\ Forall (fun doc => is_nan (cosine_value [fone] (doc_vector doc)) = false)
       three_docs
  /\ exists hits omitted,
       _mock_search three_docs [fone] 2 = Returns (map hit_dict hits)
       /\ Permutation (hits ++ omitted) (map (scored [fone]) three_docs)
       /\ Forall (fun h => Forall (fun o => SFleb (snd o) (snd h) = true) omitted)
            hits.
Proof.
  assert (H0 : 0 <= 2) by lia.
  assert (H1 : Forall (same_shape [fone]) three_docs) by (repeat constructor).
  assert (H2 : Forall (fun doc => is_nan (cosine_value [fone] (doc_vector doc)) = false)
                 three_docs) by (repeat constructor).
  split; [exact H0|]. split; [exact H1|]. split; [exact H2|].
  exact (mock_search_returns_best three_docs [fone] 2 H0 H1 H2).
Defined.

Lemma fmul_comm (x y : float) : fmul x y = fmul y x.
Proof.
  destruct x as [sx|sx| |sx mx ex], y as [sy|sy| |sy my ey]; simpl;
    try reflexivity; try (now rewrite xorb_comm).
  unfold fmul, SFmul. now rewrite xorb_comm, Pos.mul_comm, Z.add_comm.
Qed.

Lemma dot_sum_comm (v1 v2 : list float) : dot_sum v1 v2 = dot_sum v2 v1.
Proof.
  unfold dot_sum. generalize fzero.
  revert v2. induction v1 as [|a v1 IH]; intros v2 acc.
  - destruct v2; reflexivity.
  - destruct v2 as [|b v2]; [reflexivity|]. simpl.
    rewrite (fmul_comm a b). apply IH.
Qed.

(** X11.  The similarity does not depend on the order of its two
    arguments, error case included. *)
Theorem cosine_similarity_symmetric (vec1 vec2 : list float) :
  _cosine_similarity vec1 vec2 = _cosine_similarity vec2 vec1.
Proof.
  unfold _cosine_similarity, np_dot.
  rewrite (Nat.eqb_sym (List.length vec2) (List.length vec1)).
  destruct (Nat.eqb (List.length vec1) (List.length vec2)); [|reflexivity].
  simpl. now rewrite dot_sum_comm, fmul_comm.
Qed.

Section StoreRoundTrip.
Context `{Backend}.

(** X12.  A document added in mock mode is found again: when the stored
    vectors and the new one have the shape of the query vector and [top_k]
    exceeds the number of records held before, the search returns every
    record, and one of the results carries the new identifier and the
    stored metadata, text included. *)
Theorem added_document_is_found (mock_vectors : list StoredDoc)
    (id text query : string) (metadata : option metadata_t) (top_k : Z) :
  Forall (same_shape (encode query)) mock_vectors ->
  List.length (encode text) = List.length (encode query) ->
  Z.of_nat (List.length mock_vectors) < top_k ->
  exists results,
    search (snd (add_document (MockHandler mock_vectors) id text metadata))
      query top_k
    = Returns results
    /\ List.length results = S (List.length mock_vectors)
    /\ Exists
         (fun r =>
            dict_get "id" r = Some (VStr id)
            /\ dict_get "metadata" r
               = Some (VMeta (dict_set "text" text
                                (match metadata with Some m => m | None => [] end))))
         results.
Proof.
  intros Hshape Hnew Hk. simpl.
  set (doc := {| doc_id := id; doc_vector := embed_text text; doc_metadata := _ |}).
  assert (Hall : Forall (same_shape (encode query)) (mock_vectors ++ [doc])).
  { apply Forall_app. split; [exact Hshape|]. constructor; [exact Hnew | constructor]. }
  unfold embed_text at 1.
  set (sorted := sort_desc (map (scored (encode query)) (mock_vectors ++ [doc]))).
  assert (Hlen : List.length sorted = S (List.length mock_vectors)).
  { unfold sorted. rewrite (Permutation_length (sort_desc_perm _)).
    rewrite length_map, length_app. simpl. lia. }
  exists (map hit_dict sorted).
  split; [|split].
  - rewrite (mock_search_hits _ _ _ Hall), slice_firstn by lia.
    fold sorted. rewrite firstn_all2 by lia. reflexivity.
  - now rewrite length_map.
  - apply Exists_exists.
    exists (hit_dict (scored (encode query) doc)).
    split; [|split; reflexivity].
    apply in_map. unfold sorted.
    apply (Permutation_in _ (Permutation_sym (sort_desc_perm _))).
    apply in_map, in_or_app. right. now left.
Qed.
End StoreRoundTrip.

Lemma added_document_is_found_witness :
  Forall (same_shape (encode "safety stock")) [bare_doc "doc-1" [fone]]
  /\ List.length (encode "safety stock levels") = List.length (encode "safety stock")
  /\ Z.of_nat (List.length [bare_doc "doc-1" [fone]]) < 5
  /\ exists results,
       search (snd (add_document (MockHandler [bare_doc "doc-1" [fone]]) "doc-2"
                      "safety stock levels" None))
         "safety stock" 5
       = Returns results
       /\ List.length results = 2%nat.
Proof.
  assert (H1 : Forall (same_shape (encode "safety stock")) [bare_doc "doc-1" [fone]])
    by (repeat constructor).
  assert (H2 : List.length (encode "safety stock levels")
               = List.length (encode "safety stock")) by reflexivity.
  assert (H3 : Z.of_nat (List.length [bare_doc "doc-1" [fone]]) < 5) by (simpl; lia).
  split; [exact H1|]. split; [exact H2|]. split; [exact H3|].
  destruct (added_document_is_found [bare_doc "doc-1" [fone]] "doc-2"
              "safety stock levels" "safety stock" None 5 H1 H2 H3)
    as [results [Hr [Hl _]]].
  exists results. split; assumption.
Defined.

Lemma slice_incl {A : Type} (l : list A) (i j : Z) (x : A) :
  In x (Py.slice l i j) -> In x l.
Proof.
  unfold Py.slice. intros Hin.
  set (lo := Z.to_nat (Py.adjust (Py.len l) i)) in *.
  set (n := Z.to_nat (Py.adjust (Py.len l) j - Py.adjust (Py.len l) i)) in *.
  rewrite <- (firstn_skipn lo l). apply in_or_app. right.
  rewrite <- (firstn_skipn n (skipn lo l)). apply in_or_app. now left.
Qed.

Lemma forallb_filter {A : Type} (p q : A -> bool) (l : list A) :
  forallb p l = true -> forallb p (filter q l) = true.
Proof.
  rewrite !forallb_forall. intros Hp x Hx.
  apply filter_In in Hx as [Hx _]. now apply Hp.
Qed.

Section TextKey.
Context `{IndexAdmin}.

(** X13.  The reserved key is an invariant of the local store: if every
    record has a [text] in its metadata, so has every record after
    [add_document] and after [delete_document], and every result of a
    local search carries that text under [metadata]. *)
Theorem store_keeps_text_key (mock_vectors : list StoredDoc)
    (id text : string) (metadata : option metadata_t) :
  forallb has_text mock_vectors = true ->
  forallb has_text
    (stored_vectors (snd (add_document (MockHandler mock_vectors) id text metadata)))
  = true
  /\ forallb has_text
       (stored_vectors (snd (delete_document (MockHandler mock_vectors) id)))
     = true
  /\ forall query_vector top_k,
       match _mock_search mock_vectors query_vector top_k with
       | Returns results => Forall (fun r => text_of r <> None) results
       | Raises _ => True
       end.
Proof.
  intros Hinv. split; [|split].
  - simpl. rewrite forallb_app, Hinv. simpl.
    unfold has_text, dict_in. simpl. now rewrite dict_get_set_same.
  - simpl. now apply forallb_filter.
  - intros qv k. unfold _mock_search. rewrite similarities_by_shape.
    destruct (forallb (shape_ok qv) mock_vectors); simpl; [|exact I].
    apply Forall_map, Forall_forall. intros h Hh.
    apply slice_incl in Hh.
    apply (Permutation_in _ (sort_desc_perm _)) in Hh.
    apply in_map_iff in Hh as [doc [<- Hdoc]].
    rewrite forallb_forall in Hinv. specialize (Hinv doc Hdoc).
    unfold has_text, dict_in in Hinv. unfold text_of, hit_dict, result_dict. simpl.
    destruct (dict_get "text" (doc_metadata doc)); [discriminate | discriminate].
Qed.
End TextKey.

Lemma store_keeps_text_key_witness :
  forallb has_text
    [{| doc_id := "doc-1"; doc_vector := [fone];
        doc_metadata := [("text", "cycle count")] |}]
  = true
  /\ forallb has_text
       (stored_vectors
          (snd (add_document
                  (MockHandler
                     [{| doc_id := "doc-1"; doc_vector := [fone];
                         doc_metadata := [("text", "cycle count")] |}])
                  "doc-2" "reorder point" None)))
     = true.
Proof.
  split; [reflexivity|].
  apply (store_keeps_text_key
           [{| doc_id := "doc-1"; doc_vector := [fone];
               doc_metadata := [("text", "cycle count")] |}]
           "doc-2" "reorder point" None).
  reflexivity.
Defined.

(** ** get_answer, process_query and the shape of results *)

Section AnswerPaths.
Context `{Backend} `{SetOrder}.

(** X14.  [get_answer] returns normally only with the canned sentence and
    no sources, and only when the search found nothing; when the search
    found anything it raises [KeyError] on [text]; otherwise it raises
    what the search raised. *)
Theorem get_answer_only_canned (self : RAGHandler) (query : string) :
  match get_answer self query with
  | Returns a =>
      a = {| answer := insufficient_information; sources := [] |}
      /\ search self query 3 = Returns []
  | Raises e =>
      search self query 3 = Raises e
      \/ e = KeyError "text"
         /\ exists r rs, search self query 3 = Returns (r :: rs)
  end.
Proof.
  destruct (search self query 3) as [[|r rs]|e] eqn:Hs.
  - unfold get_answer. rewrite Hs. simpl. split; reflexivity.
  - rewrite (get_answer_key_error _ _ _ _ Hs). right. split; [reflexivity|]. eauto.
  - unfold get_answer. rewrite Hs. simpl. now left.
Qed.

(** X15.  In mock mode [process_query] is [get_answer]: the caller's
    [top_k] has no effect on what is returned or raised. *)
Theorem process_query_mock_ignores_top_k (mock_vectors : list StoredDoc)
    (query : string) (top_k : Z) :
  process_query (MockHandler mock_vectors) query top_k
  = get_answer (MockHandler mock_vectors) query.
Proof.
  unfold process_query, search_documents, get_answer, search, _mock_search. simpl.
  rewrite similarities_by_shape.
  destruct (forallb (shape_ok (embed_text query)) mock_vectors); simpl.
  - destruct (map _ (Py.slice _ 0 top_k)); reflexivity.
  - reflexivity.
Qed.

(** X16.  Every dictionary [search] returns, in either mode, has exactly
    the keys [id], [score] and [metadata], in this order; reading [text]
    from it raises [KeyError]. *)
Theorem search_result_keys (self : RAGHandler) (query : string) (top_k : Z) :
  match search self query top_k with
  | Returns results =>
      Forall (fun r => map fst r = ["id"; "score"; "metadata"]
                       /\ getitem r "text" = Raises (KeyError "text"))
        results
  | Raises _ => True
  end.
Proof.
  destruct (search self query top_k) as [results|e] eqn:Hs; [|exact I].
  apply search_results_shape in Hs.
  eapply Forall_impl; [|exact Hs].
  intros r [id [score [metadata ->]]]. split; reflexivity.
Qed.
End AnswerPaths.

(** ** get_all_documents *)

Lemma unique_by_name_names (documents : list DocInfo) :
  forall seen,
    NoDup (map info_name (unique_by_name seen documents))
    /\ (forall d, In d (unique_by_name seen documents) ->
                  ~ In (info_name d) seen /\ In d documents)
    /\ (forall d, In d documents ->
                  In (info_name d) seen
                  \/ In (info_name d) (map info_name (unique_by_name seen documents))).
Proof.
  induction documents as [|doc rest IH]; intros seen.
  - split; [constructor|]. split; [intros d []|intros d []].
  - simpl. destruct (existsb (String.eqb (info_name doc)) seen) eqn:E.
    + destruct (IH seen) as [Hnd [Hin Hall]].
      split; [exact Hnd|]. split.
      * intros d Hd. destruct (Hin d Hd). split; [assumption | now right].
      * intros d [<-|Hd]; [|now apply Hall].
        left. apply existsb_exists in E as [n [Hn Hq]].
        apply String.eqb_eq in Hq. now rewrite Hq.
    + destruct (IH (info_name doc :: seen)) as [Hnd [Hin Hall]].
      assert (Hfresh : ~ In (info_name doc) seen).
      { intros Hs. assert (existsb (String.eqb (info_name doc)) seen = true).
        { apply existsb_exists. exists (info_name doc).
          split; [exact Hs | apply String.eqb_refl]. }
        congruence. }
      split; [|split].
      * simpl. constructor; [|exact Hnd].
        intros Hdup. apply in_map_iff in Hdup as [d [Hname Hd]].
        destruct (Hin d Hd) as [Hns _]. apply Hns. left. now symmetry.
      * intros d [<-|Hd]; [split; [exact Hfresh | now left]|].
        destruct (Hin d Hd) as [Hns Hr].
        split; [intros Hs; apply Hns; now right | now right].
      * intros d [<-|Hd]; [right; now left|].
        destruct (Hall d Hd) as [[Hq|Hs]|Hr].
        -- right. left. exact Hq.
        -- now left.
        -- right. now right.
Qed.

(** The entry kept for a name is the first document with that name. *)
Lemma unique_by_name_first (documents : list DocInfo) :
  forall seen d,
    In d (unique_by_name seen documents) ->
    exists before after,
      documents = (before ++ d :: after)%list
      /\ ~ In (info_name d) (map info_name before).
Proof.
  induction documents as [|doc rest IH]; intros seen d Hd; [destruct Hd|].
  simpl in Hd. destruct (existsb (String.eqb (info_name doc)) seen) eqn:E.
  - destruct (proj1 (proj2 (unique_by_name_names rest seen)) d Hd) as [Hns _].
    destruct (IH seen d Hd) as [before [after [-> Hb]]].
    exists (doc :: before), after. split; [reflexivity|].
    simpl. intros [Hq|Hin]; [|now apply Hb].
    apply Hns. apply existsb_exists in E as [n [Hn Hq']].
    apply String.eqb_eq in Hq'. rewrite <- Hq, Hq'. exact Hn.
  - destruct Hd as [<-|Hd].
    + exists [], rest. split; [reflexivity | intros []].
    + destruct (proj1 (proj2 (unique_by_name_names rest (info_name doc :: seen))) d Hd)
        as [Hns _].
      destruct (IH _ d Hd) as [before [after [-> Hb]]].
      exists (doc :: before), after. split; [reflexivity|].
      simpl. intros [Hq|Hin]; [|now apply Hb].
      apply Hns. now left.
Qed.

Lemma text_preview_length (metadata : metadata_t) :
  Py.str_len (text_preview metadata) <= 103.
Proof.
  unfold text_preview.
  destruct (String.eqb (dict_get_default "text" "" metadata) "");
    [unfold Py.str_len, Py.len; simpl; lia|].
  rewrite str_len_append, str_slice_length.
  pose proof (str_len_nonneg (dict_get_default "text" "" metadata)) as Hn.
  pose proof (adjust_range _ 100 Hn) as H100.
  pose proof (adjust_range _ 0 Hn) as H0.
  assert (Py.adjust (Py.str_len (dict_get_default "text" "" metadata)) 100 <= 100).
  { unfold Py.adjust. simpl. lia. }
  change (Py.str_len "...") with 3. lia.
Qed.

Section DocumentLibrary.
Context `{IndexAdmin}.

(** X17.  Whatever the handler and whatever the remote index answers,
    [get_all_documents] lists no file name twice, and no preview is longer
    than 103 characters. *)
Theorem get_all_documents_unique_names (self : RAGHandler) :
  NoDup (map info_name (get_all_documents self))
  /\ Forall (fun d => Py.str_len (info_text_preview d) <= 103)
       (get_all_documents self).
Proof.
  destruct self as [mv|index]; unfold get_all_documents.
  - split; [repeat constructor; intros []|].
    repeat constructor. vm_compute. discriminate.
  - destruct (describe_index_stats index) as [total|e];
      [|split; constructor].
    destruct (total =? 0); [split; constructor|].
    destruct (index_query index (repeat fzero 384) (Z.min total 10000))
      as [matches|e]; [|split; constructor].
    split; [apply unique_by_name_names|].
    apply Forall_forall. intros d Hd.
    apply (proj1 (proj2 (unique_by_name_names _ []))) in Hd as [_ Hd].
    apply in_map_iff in Hd as [m [<- _]]. simpl. apply text_preview_length.
Qed.

(** X18.  When the index reports a non-zero count and answers the listing
    query with [matches], every file name among the matches is listed, and
    the entry listed for a name is built from the first match with that
    name. *)
Theorem get_all_documents_first_per_name (index : Index) (total : Z)
    (matches : list Match) :
  describe_index_stats index = Returns total ->
  total <> 0 ->
  index_query index (repeat fzero 384) (Z.min total 10000) = Returns matches ->
  Forall (fun m => In (info_name (doc_info m))
                     (map info_name (get_all_documents (RemoteHandler index))))
    matches
  /\ Forall (fun d => exists before after,
                 map doc_info matches = (before ++ d :: after)%list
                 /\ ~ In (info_name d) (map info_name before))
       (get_all_documents (RemoteHandler index)).
Proof.
  intros Hstats Hne Hq. unfold get_all_documents. rewrite Hstats.
  destruct (total =? 0) eqn:E; [apply Z.eqb_eq in E; contradiction|].
  rewrite Hq. split.
  - apply Forall_forall. intros m Hm.
    destruct (proj2 (proj2 (unique_by_name_names (map doc_info matches) []))
                (doc_info m) (in_map doc_info _ _ Hm)) as [[]|Hin].
    exact Hin.
  - apply Forall_forall. intros d Hd. now apply (unique_by_name_first _ []).
Qed.
End DocumentLibrary.

Lemma get_all_documents_first_per_name_witness :
  @describe_index_stats listing_backend listing_admin tt = Returns 3
  /\ 3 <> 0
  /\ @index_query listing_backend tt (repeat fzero 384) (Z.min 3 10000)
     = Returns listing_matches
  /\ Forall (fun m => In (info_name (doc_info m))
                        (map info_name
                           (@get_all_documents listing_backend listing_admin
                              (@RemoteHandler listing_backend tt))))
       listing_matches.
Proof.
  assert (H1 : @describe_index_stats listing_backend listing_admin tt = Returns 3)
    by reflexivity.
  assert (H2 : 3 <> 0) by discriminate.
  assert (H3 : @index_query listing_backend tt (repeat fzero 384) (Z.min 3 10000)
               = Returns listing_matches) by reflexivity.
  split; [exact H1|]. split; [exact H2|]. split; [exact H3|].
  exact (proj1 (@get_all_documents_first_per_name listing_backend listing_admin
                  tt 3 listing_matches H1 H2 H3)).
Defined.

Example get_all_documents_listing :
  map info_id
    (@get_all_documents listing_backend listing_admin
       (@RemoteHandler listing_backend tt))
  = ["m1"; "m3"].
Proof. reflexivity. Qed.

(** ** The upload loop *)

Section Upload.
Context `{Backend}.

(** X19.  In mock mode the upload loop appends one record per chunk, in
    order, after the records already held: record [i] has the identifier
    drawn by call [i], the vector the handler computes from the chunk
    text (not the embedding [process_document] attached to the chunk), the
    chunk text under [text], and every other metadata key of the chunk. *)
Theorem index_chunks_appends (uuid4 : Z -> string)
    (document_chunks : list DocumentChunk) :
  forall (i : Z) (mock_vectors : list StoredDoc),
  exists added,
    index_chunks uuid4 i (MockHandler mock_vectors) document_chunks
    = MockHandler (mock_vectors ++ added)
    /\ Forall2
         (fun ic doc =>
            doc_id doc = uuid4 (fst ic)
            /\ doc_vector doc = encode (dc_text (snd ic))
            /\ dict_get "text" (doc_metadata doc) = Some (dc_text (snd ic))
            /\ forall k,
                 k = "text"
                 \/ dict_get k (doc_metadata doc)
                    = dict_get k (dc_metadata (snd ic)))
         (enumerate_from i document_chunks) added.
Proof.
  induction document_chunks as [|chunk rest IH]; intros i mock_vectors.
  - exists []. rewrite app_nil_r. split; [reflexivity | constructor].
  - simpl.
    set (doc := {| doc_id := uuid4 i; doc_vector := embed_text (dc_text chunk);
                   doc_metadata := dict_set "text" (dc_text chunk) (dc_metadata chunk) |}).
    destruct (IH (i + 1) (mock_vectors ++ [doc])%list) as [added [Hq Hf]].
    exists (doc :: added). split.
    + rewrite Hq, <- app_assoc. reflexivity.
    + constructor; [|exact Hf]. simpl.
      split; [reflexivity|]. split; [reflexivity|].
      split; [apply dict_get_set_same|].
      intros k. destruct (String.eqb k "text") eqn:E.
      * left. now apply String.eqb_eq.
      * right. now apply dict_get_set_other.
Qed.
End Upload.

(** ** process_query against the remote index *)

Section RemoteAnswer.
Context `{Backend} `{SetOrder}.

Lemma source_entry_of_match (m : Match) :
  source_entry (result_dict (match_id m) (match_score m) (match_metadata m))
  = match_source m.
Proof.
  unfold source_entry, file_name_of, relevance_of, match_source, result_dict. simpl.
  destruct (dict_get "file_name" (match_metadata m)); reflexivity.
Qed.

(** X20.  When the remote index answers the query with at least one
    match, [process_query] returns: the sources are, in order, the file
    name and the score of every match that has a [file_name], and the
    answer is the no-information sentence or begins with the header
    naming the query. *)
Theorem process_query_remote_hits (index : Index) (query : string) (top_k : Z)
    (m : Match) (ms : list Match) :
  index_query index (encode query) top_k = Returns (m :: ms) ->
  exists a,
    process_query (RemoteHandler index) query top_k = Returns a
    /\ sources a = keep_some (map match_source (m :: ms))
    /\ (answer a = no_relevant_information
        \/ exists lines, answer a = response_header query ++ lines).
Proof.
  intros Hq.
  unfold process_query, search_documents, search, embed_text. rewrite Hq.
  cbn [map bind mock negb].
  eexists. split; [reflexivity|]. split.
  - cbn [sources _generate_response_from_docs].
    rewrite doc_sources_entries. cbn [map].
    rewrite source_entry_of_match, map_map.
    rewrite (map_ext _ match_source source_entry_of_match). reflexivity.
  - cbn [answer _generate_response_from_docs]. unfold generate_response.
    destruct (doc_contexts _); [now left|].
    right. rewrite fold_lines. eauto.
Qed.
End RemoteAnswer.

Lemma process_query_remote_hits_witness :
  @index_query listing_backend tt (@encode listing_backend "plan") 5
  = Returns listing_matches
  /\ exists a,
       @process_query listing_backend nodup_order (@RemoteHandler listing_backend tt)
         "plan" 5
       = Returns a
       /\ sources a = keep_some (map match_source listing_matches).
Proof.
  assert (H1 : @index_query listing_backend tt (@encode listing_backend "plan") 5
               = Returns listing_matches) by reflexivity.
  split; [exact H1|].
  destruct (@process_query_remote_hits listing_backend nodup_order tt "plan" 5 _ _ H1)
    as [a [Ha [Hs _]]].
  exists a. split; assumption.
Defined.

(** ** Natural boundaries *)

Lemma rfind_scan_char (c : ascii) (full : list ascii) :
  forall l pre acc lo hi,
    full = (pre ++ l)%list ->
    acc = -1 \/ (0 <= acc /\ nth_error full (Z.to_nat acc) = Some c) ->
    Py.rfind_scan c l (Z.of_nat (List.length pre)) lo hi acc = -1
    \/ (0 <= Py.rfind_scan c l (Z.of_nat (List.length pre)) lo hi acc
        /\ nth_error full
             (Z.to_nat (Py.rfind_scan c l (Z.of_nat (List.length pre)) lo hi acc))
           = Some c).
Proof.
  induction l as [|x l IH]; intros pre acc lo hi Hfull Hacc; simpl.
  - exact Hacc.
  - replace (Z.of_nat (List.length pre) + 1)
      with (Z.of_nat (List.length (pre ++ [x]))) by (rewrite length_app; simpl; lia).
    apply IH.
    + rewrite <- app_assoc. exact Hfull.
    + destruct ((lo <=? Z.of_nat (List.length pre))
                && (Z.of_nat (List.length pre) <? hi) && Ascii.eqb x c)%bool eqn:E;
        [|exact Hacc].
      apply andb_prop in E as [_ E]. apply Ascii.eqb_eq in E. subst x.
      right. split; [lia|].
      rewrite Nat2Z.id, Hfull, nth_error_app2 by lia.
      now rewrite Nat.sub_diag.
Qed.

(** What [rfind] finds is an occurrence of the character. *)
Lemma rfind_char (text : string) (c : ascii) (i j : Z) :
  Py.str_rfind text c i j = -1
  \/ (0 <= Py.str_rfind text c i j
      /\ nth_error (list_ascii_of_string text) (Z.to_nat (Py.str_rfind text c i j))
         = Some c).
Proof.
  unfold Py.str_rfind, Py.rfind.
  apply (rfind_scan_char c (list_ascii_of_string text) _ []); [reflexivity | now left].
Qed.

Lemma nth_error_firstn_skipn {A : Type} (l : list A) (n : nat) (x : A) :
  nth_error l n = Some x -> firstn 1 (skipn n l) = [x].
Proof.
  revert l. induction n as [|n IH]; intros [|y l] Hn; try discriminate.
  - injection Hn as ->. reflexivity.
  - simpl. now apply IH.
Qed.

Lemma char_before_found (text : string) (c : ascii) (r : Z) :
  0 <= r -> nth_error (list_ascii_of_string text) (Z.to_nat r) = Some c ->
  char_before text (r + 1) = String c "".
Proof.
  intros Hr Hn. unfold char_before, Py.str_slice, Py.slice.
  assert (Hlt : (Z.to_nat r < List.length (list_ascii_of_string text))%nat).
  { apply nth_error_Some. congruence. }
  rewrite !adjust_id by (unfold Py.len; lia).
  replace (r + 1 - 1) with r by lia.
  replace (Z.to_nat (r + 1 - r)) with 1%nat by lia.
  now rewrite (nth_error_firstn_skipn _ _ _ Hn).
Qed.

(** X21.  A chunk cut from a cursor inside the text ends either at the
    hard boundary [min(start + chunk_size, len(text))] or right after a
    newline or a space. *)
Theorem chunk_text_ends_at_boundary (self : DocumentProcessor) (text : string)
    (chunk_size overlap : Z) :
  0 < chunk_size ->
  Forall
    (fun sp =>
       fst sp < 0
       \/ snd sp = Z.min (fst sp + chunk_size) (Py.str_len text)
       \/ char_before text (snd sp) = String newline ""
       \/ char_before text (snd sp) = String space "")
    (chunk_spans self text chunk_size overlap).
Proof.
  intros Hc.
  pose proof (run_spans _ _ _ _ _ (chunk_spans_run self text chunk_size overlap))
    as Hsp.
  eapply Forall_impl; [|exact Hsp].
  intros [s e] [Hs He]. simpl in *. subst e.
  destruct (Z.lt_ge_cases s 0) as [Hneg|Hpos]; [now left|]. right.
  unfold window_end.
  destruct (Z.min (s + chunk_size) (Py.str_len text) <? Py.str_len text);
    [|now left].
  destruct (Py.str_rfind text newline s
              (Z.min (s + chunk_size) (Py.str_len text)) >? s) eqn:En.
  - apply Z.gtb_lt in En. right. left.
    destruct (rfind_char text newline s (Z.min (s + chunk_size) (Py.str_len text)))
      as [Hm|[H0 Hn]]; [lia|].
    now apply char_before_found.
  - destruct (Py.str_rfind text space s
                (Z.min (s + chunk_size) (Py.str_len text)) >? s) eqn:Esp;
      [|now left].
    apply Z.gtb_lt in Esp. right. right.
    destruct (rfind_char text space s (Z.min (s + chunk_size) (Py.str_len text)))
      as [Hm|[H0 Hn]]; [lia|].
    now apply char_before_found.
Qed.

Lemma chunk_text_ends_at_boundary_witness :
  0 < 8
  /\ Forall
       (fun sp =>
          fst sp < 0
          \/ snd sp = Z.min (fst sp + 8) (Py.str_len "hello world foo bar")
          \/ char_before "hello world foo bar" (snd sp) = String newline ""
          \/ char_before "hello world foo bar" (snd sp) = String space "")
       (chunk_spans (with_max_chunks 6) "hello world foo bar" 8 2).
Proof.
  split; [lia|]. apply chunk_text_ends_at_boundary. lia.
Defined.
